(** * MotionPredictionDataset: scene-tag filtering, worker sharding and
      example generation

    A shallow embedding of
    [sdc_motion_prediction/ysdc_dataset_api/dataset/dataset.py] and of the
    [RENDERER_CONFIG] literal of [sdc_motion_prediction/sdc/constants.py],
    followed by the properties of the dataset that the specification states.

    Python integers are [Z]; lists are [list]; the example dictionaries are
    [gmap string _]; exceptions are the constructors of [exn], carried by the
    error monad [result]. Code that also acts on the outside is in [Eff], an
    error monad that records what was emitted on the way: the constructor,
    which lists a directory, opens the tag file and prints, emits these
    events; a generator emits what it yields. *)

From stdpp Require Import gmap strings list fin_maps pretty.
From Stdlib Require Import ZArith QArith.

Local Open Scope Z_scope.

(* ===================================================================== *)
(** ** Python primitives used by the dataset                              *)
(* ===================================================================== *)

Module Py.

(** The exceptions that the modelled code can let escape.
    [MalformedTagRecord] is the error type the specification names for a
    tag line that fails to parse; no statement of the source constructs
    it, it is here so that the specification's sentence can be stated. *)
Inductive exn : Type :=
| ZeroDivisionError
| ValueError (msg : string)
| IndexError
| OSError (fname : string)
| RuntimeError (msg : string)
| JSONDecodeError (msg : string) (doc : string) (pos : Z)
| MalformedTagRecord (lineno : Z).

Inductive result (A : Type) : Type :=
| Ok (a : A)
| Raise (e : exn).
Arguments Ok {A} a.
Arguments Raise {A} e.

#[global] Instance result_ret : MRet result := λ A a, Ok a.
#[global] Instance result_bind : MBind result := λ A B f r,
  match r with
  | Ok a => f a
  | Raise e => Raise e
  end.

Definition is_ok {A} (r : result A) : bool :=
  match r with Ok _ => true | Raise _ => false end.

(** [a // b] on integers: floor division, [ZeroDivisionError] on [b = 0]. *)
Definition floordiv (a b : Z) : result Z :=
  if b =? 0 then Raise ZeroDivisionError else Ok (a `div` b).

(** Number of elements of [range(lo, hi, step)] for [step > 0]. *)
Definition range_length (lo hi step : Z) : Z :=
  if lo <? hi then (hi - lo - 1) `div` step + 1 else 0.

(** [list(range(start, stop, step))]. *)
Definition range (start stop step : Z) : result (list Z) :=
  if step =? 0 then Raise (ValueError "range() arg 3 must not be zero")
  else
    let n := if 0 <? step then range_length start stop step
             else range_length stop start (- step) in
    Ok ((λ k, start + k * step) <$> seqZ 0 n).

(** [l[i]]: a negative index counts from the end; [IndexError] when the
    index falls outside the list. *)
Definition getitem {A} (l : list A) (i : Z) : result A :=
  let n := Z.of_nat (length l) in
  let j := if i <? 0 then i + n else i in
  if j <? 0 then Raise IndexError
  else match l !! Z.to_nat j with
       | Some x => Ok x
       | None => Raise IndexError
       end.

(** How a slice bound is adjusted to a list of length [n]. *)
Definition adjust_index (n i : Z) : Z :=
  let j := if i <? 0 then i + n else i in
  if j <? 0 then 0 else if n <=? j then n else j.

(** [l[start:stop]]; never raises. *)
Definition slice {A} (l : list A) (start stop : Z) : list A :=
  let n := Z.of_nat (length l) in
  let a := adjust_index n start in
  let b := adjust_index n stop in
  take (Z.to_nat (b - a)) (drop (Z.to_nat a) l).

(** [enumerate(l)], counting from [i]. *)
Fixpoint enumerate_from {A} (i : Z) (l : list A) : list (Z * A) :=
  match l with
  | [] => []
  | x :: l' => (i, x) :: enumerate_from (i + 1) l'
  end.

Definition enumerate {A} (l : list A) : list (Z * A) := enumerate_from 0 l.

(** A list comprehension [[f(x) for x in l]] whose body may raise: the
    first exception ends it. *)
Fixpoint comprehension {A B} (f : A → result B) (l : list A)
  : result (list B) :=
  match l with
  | [] => Ok []
  | x :: l' =>
      y ← f x;
      ys ← comprehension f l';
      Ok (y :: ys)
  end.

(** [d.update(other)]: every key of [other] is written into [d], replacing
    the value of a key that [d] already has. *)
Definition dict_update {V} (d other : gmap string V) : gmap string V :=
  other ∪ d.

(** What a caller may pass for an optional callable argument: [None], a
    callable, or some other object (of which the type name is kept, for
    the error message). *)
Inductive optional_callable (A : Type) : Type :=
| PyNone
| PyCallable (f : A → bool)
| PyObject (type_name : string).
Arguments PyNone {A}.
Arguments PyCallable {A} f.
Arguments PyObject {A} type_name.

(** Observable effects of building a dataset. *)
Inductive event : Type :=
| EvListDir (dataset_path : string)
| EvOpen (fpath : string)
| EvPrint (text : string).

(** A computation that emits values of type [E] as it runs and ends by
    returning or by raising: what it emitted, in order, and how it ended.
    With [E := event] it is code with side effects; with [E] the type of
    what is yielded it is the run of a generator to its end. *)
Record Eff (E A : Type) : Type := MkEff {
  emitted : list E;
  outcome : result A
}.
Arguments MkEff {E A} emitted outcome.
Arguments emitted {E A} _.
Arguments outcome {E A} _.

#[global] Instance Eff_ret {E} : MRet (Eff E) := λ A a, MkEff [] (Ok a).
#[global] Instance Eff_bind {E} : MBind (Eff E) := λ A B f m,
  match outcome m with
  | Ok a => MkEff (emitted m ++ emitted (f a)) (outcome (f a))
  | Raise e => MkEff (emitted m) (Raise e)
  end.

Abbreviation IO := (Eff event).

Definition lift {E A} (r : result A) : Eff E A := MkEff [] r.
Definition emit {E} (e : E) : Eff E unit := MkEff [e] (Ok tt).
Definition print (text : string) : IO unit := emit (EvPrint text).

(** [yield x] in a generator. *)
Definition yield {E} (x : E) : Eff E unit := emit x.

(** [for x in l: body(x)] over a list. *)
Fixpoint for_each {E A} (l : list A) (body : A → Eff E unit) : Eff E unit :=
  match l with
  | [] => mret tt
  | x :: l' => body x;; for_each l' body
  end.

(** [for x in g: body(x)] over a generator [g]: the body runs on each value
    that [g] yields, and an exception that ends [g] comes out of the loop
    after them. *)
Definition for_yielded {E X} (g : Eff X unit) (body : X → Eff E unit)
  : Eff E unit :=
  for_each (emitted g) body;; lift (outcome g).

End Py.

Import Py.

(* ===================================================================== *)
(** ** What the dataset imports                                           *)
(* ===================================================================== *)

(** The dataset module imports its helpers from [..utils] and [..proto],
    parses tag lines with [json.loads] and reads the tag file from disk.
    None of these is defined in the modelled files: they are the fields of
    this class, and every definition and theorem below is stated for an
    arbitrary instance of it. The validator, the tag extractor and the
    caller's predicates return their value; the helpers that read a scene
    file or compute on a request may raise instead. *)
Class Collaborators : Type := {
  (** opaque data *)
  Scene : Type;
  Request : Type;
  Track : Type;
  Transform : Type;
  Array : Type;
  TrajectoryTags : Type;
  JSON : Type;
  (** the protobuf accessors [scene.prediction_requests], [request.track_id] *)
  prediction_requests : Scene → list Request;
  track_id : Request → Z;
  (** [..proto] *)
  get_tags_from_request : Request → TrajectoryTags;
  (** [..utils] *)
  get_file_paths : string → list string;
  request_is_valid : Scene → Request → bool;
  get_track_for_transform : Scene → Z → result Track;
  get_to_track_frame_transform : Track → result Transform;
  get_gt_trajectory : Scene → Z → result Array;
  transform2dpoints : Array → Transform → result Array;
  (** reading one scene file, the step of [..utils.scenes_generator] *)
  decode : string → result Scene;
  (** [json.loads]: the parsed value, or the message and the position, in
      the parsed text, of a [JSONDecodeError] *)
  json_loads : string → (string * Z) + JSON;
  (** [str.strip] *)
  str_strip : string → string;
  (** the lines of the text file at a path, if it can be opened *)
  file_lines : string → option (list string)
}.

(** The feature producer handed to the constructor: an object with one
    method, [produce_features(scene, transform)], returning a mapping. *)
Record FeatureProducer `{Collaborators} : Type := {
  produce_features : Scene → Transform → result (gmap string Array)
}.

(** [torch.utils.data.get_worker_info()], when it is not [None]. *)
Module worker_info.
Record t : Type := { id : Z; num_workers : Z }.
End worker_info.

(** The attributes of a [MotionPredictionDataset] instance. *)
Record MotionPredictionDataset `{Collaborators} : Type := {
  _feature_producer : FeatureProducer;
  _transform_ground_truth_to_agent_frame : bool;
  _scene_tags_filter : JSON → bool;
  _trajectory_tags_filter : TrajectoryTags → bool;
  _scene_file_paths : list string
}.

(* ===================================================================== *)
(** ** dataset.py                                                         *)
(* ===================================================================== *)

Section Dataset.
Context `{Collaborators}.

Definition _trivial_filter {A} (x : A) : bool := true.

Definition _callable_or_trivial_filter {A} (f : optional_callable A)
  : result (A → bool) :=
  match f with
  | PyNone => Ok _trivial_filter
  | PyCallable g => Ok g
  | PyObject ty => Raise (ValueError ("Expected callable, got " +:+ ty))
  end.

(** [json.loads(line.strip())] *)
Definition loads_stripped (line : string) : result JSON :=
  let doc := str_strip line in
  match json_loads doc with
  | inr tags => Ok tags
  | inl (msg, pos) => Raise (JSONDecodeError msg doc pos)
  end.

(** The loop of [_filter_paths] over the enumerated lines of the tag
    file; [valid_indices] is the list built so far. *)
Fixpoint collect_valid_indices (scene_tags_filter : JSON → bool)
    (lines : list (Z * string)) (valid_indices : list Z) : result (list Z) :=
  match lines with
  | [] => Ok valid_indices
  | (i, line) :: rest =>
      tags ← loads_stripped line;
      if scene_tags_filter tags
      then collect_valid_indices scene_tags_filter rest (valid_indices ++ [i])
      else collect_valid_indices scene_tags_filter rest valid_indices
  end.

(** [open(fpath, 'r')], read as its list of lines. *)
Definition open_lines (fpath : string) : IO (list string) :=
  emit (EvOpen fpath);;
  match file_lines fpath with
  | Some lines => mret lines
  | None => lift (Raise (OSError fpath))
  end.

(** [_filter_paths]. The method reads one attribute of [self], the scene
    tags filter, which is set before the constructor calls it; it is the
    first argument here. *)
Definition _filter_paths (scene_tags_filter : JSON → bool)
    (file_paths : list string) (scene_tags_fpath : string)
  : IO (list string) :=
  f ← open_lines scene_tags_fpath;
  valid_indices ← lift (collect_valid_indices scene_tags_filter (enumerate f) []);
  print (pretty (length valid_indices) +:+ "/" +:+ pretty (length file_paths)
         +:+ " scenes fit the filter criteria.");;
  lift (comprehension (getitem file_paths) valid_indices).

Definition __init__
    (dataset_path scene_tags_fpath : string)
    (feature_producer : FeatureProducer)
    (transform_ground_truth_to_agent_frame : bool)
    (scene_tags_filter : optional_callable JSON)
    (trajectory_tags_filter : optional_callable TrajectoryTags)
    (pre_filtered_scene_file_paths : option (list string))
  : IO MotionPredictionDataset :=
  stf ← lift (_callable_or_trivial_filter scene_tags_filter);
  ttf ← lift (_callable_or_trivial_filter trajectory_tags_filter);
  paths ← match pre_filtered_scene_file_paths with
          | Some l =>
              print ("Building MotionPredictionDataset with pre-filtered "
                     +:+ "scene file paths.");;
              mret l
          | None =>
              emit (EvListDir dataset_path);;
              _filter_paths stf (get_file_paths dataset_path) scene_tags_fpath
          end;
  mret {| _feature_producer := feature_producer;
          _transform_ground_truth_to_agent_frame :=
            transform_ground_truth_to_agent_frame;
          _scene_tags_filter := stf;
          _trajectory_tags_filter := ttf;
          _scene_file_paths := paths |}.

Definition num_scenes (self : MotionPredictionDataset) : Z :=
  Z.of_nat (length (_scene_file_paths self)).

Definition _split_filepaths_by_worker (self : MotionPredictionDataset)
    (worker_id num_workers : Z) : result (list string) :=
  n_scenes_per_worker ← floordiv (num_scenes self) num_workers;
  split ← range 0 (num_scenes self) n_scenes_per_worker;
  start ← getitem split worker_id;
  stop ← (if worker_id =? num_workers - 1
          then Ok (num_scenes self)
          else getitem split (worker_id + 1));
  Ok (slice (_scene_file_paths self) start stop).

(** Modelled from the spec: [..utils.scenes_generator] is not among the
    modelled files. It is a generator that decodes the scene files of a path
    list one at a time, in the order of the list, and yields each scene; a
    file that fails to decode ends it with the exception ("decode scene
    lazily", "scene-file order", [decode(path) -> Scene], "propagate and
    abort the whole iteration"). *)
Definition scenes_generator (file_paths : list string) : Eff Scene unit :=
  for_each file_paths (λ fpath, scene ← lift (decode fpath); yield scene).

(** The statements of the inner loop of [data_gen] that follow the two
    checks, up to the dictionary that is yielded. *)
Definition make_result (self : MotionPredictionDataset)
    (scene : Scene) (request : Request) : result (gmap string Array) :=
  track ← get_track_for_transform scene (track_id request);
  to_track_frame_tf ← get_to_track_frame_transform track;
  ground_truth_trajectory ← get_gt_trajectory scene (track_id request);
  ground_truth_trajectory ←
    (if _transform_ground_truth_to_agent_frame self
     then transform2dpoints ground_truth_trajectory to_track_frame_tf
     else Ok ground_truth_trajectory);
  let result : gmap string Array :=
    {[ "ground_truth_trajectory" := ground_truth_trajectory ]} in
  features ← produce_features (_feature_producer self) scene to_track_frame_tf;
  Ok (dict_update result features).

(** The body of [for request in scene.prediction_requests]; each of the
    two [continue] statements ends it at once. *)
Definition request_body (self : MotionPredictionDataset) (scene : Scene)
    (request : Request) : Eff (gmap string Array) unit :=
  if negb (request_is_valid scene request) then mret tt
  else
    let trajectory_tags := get_tags_from_request request in
    if negb (_trajectory_tags_filter self trajectory_tags) then mret tt
    else
      result ← lift (make_result self scene request);
      yield result.

(** The generator [data_gen], run to its end. *)
Definition data_gen (self : MotionPredictionDataset)
    (file_paths : list string) : Eff (gmap string Array) unit :=
  for_yielded (scenes_generator file_paths) (λ scene,
    for_each (prediction_requests scene) (λ request,
      request_body self scene request)).

(** [__iter__] raises, or returns the generator. *)
Definition __iter__ (self : MotionPredictionDataset)
    (get_worker_info : option worker_info.t)
  : result (Eff (gmap string Array) unit) :=
  file_paths ← match get_worker_info with
               | None => Ok (_scene_file_paths self)
               | Some worker_info =>
                   _split_filepaths_by_worker self
                     (worker_info.id worker_info)
                     (worker_info.num_workers worker_info)
               end;
  Ok (data_gen self file_paths).

(** The method [_callable_or_lambda_true]; nothing in the file calls it.
    It does not read [self]. *)
Definition _callable_or_lambda_true {A} (self : MotionPredictionDataset)
    (f : optional_callable A) : result (A → bool) :=
  match f with
  | PyNone => Ok (λ x, true)
  | PyCallable g => Ok g
  | PyObject ty => Raise (ValueError ("Expected callable, got " +:+ ty))
  end.

End Dataset.

(* ===================================================================== *)
(** ** constants.py: the renderer configuration                           *)
(* ===================================================================== *)

Module constants.

Definition VALID_TRAJECTORY_TAGS : list string := [
  "kMoveLeft"; "kMoveRight"; "kMoveForward"; "kMoveBack";
  "kAcceleration"; "kDeceleration"; "kUniform";
  "kStopping"; "kStarting"; "kStationary"].

Definition SCENE_TAG_TYPE_TO_OPTIONS : gmap string (list string) :=
  {[ "day_time" := ["kNight"; "kMorning"; "kAfternoon"; "kEvening"];
     "season" := ["kWinter"; "kSpring"; "kSummer"; "kAutumn"];
     "track" := [
       "Moscow"; "Skolkovo"; "Innopolis"; "AnnArbor"; "Modiin"; "TelAviv"];
     "sun_phase" := ["kAstronomicalNight"; "kTwilight"; "kDaylight"];
     "precipitation" := ["kNoPrecipitation"; "kRain"; "kSleet"; "kSnow"] ]}.

Definition VALID_AGGREGATORS : gset string :=
  {[ "min"; "mean"; "max"; "confidence-weight" ]}.

Definition VALID_BASE_METRICS : gset string := {[ "ade"; "fde" ]}.

Definition SPLIT_TO_PB_DATASET_PATH : gmap string string :=
  {[ "train" := "/train_pb/";
     "validation" := "/validation_pb/";
     "test" := "/test_pb/" ]}.

Definition SPLIT_TO_RENDERED_DATASET_PATH : gmap string string :=
  {[ "train" := "/train_rendered/";
     "validation" := "/validation_rendered/";
     "test" := "/test_rendered/" ]}.

Definition SPLIT_TO_SCENE_TAGS_PATH : gmap string string :=
  {[ "train" := "/train_tags.txt";
     "validation" := "/validation_tags.txt";
     "test" := "/test_tags.txt" ]}.

Record FeatureMapParams : Type := {
  rows : Z;
  cols : Z;
  resolution : Q
}.

Record TimeGridParams : Type := {
  start : Z;
  stop : Z;
  step : Z
}.

(** One entry of ['renderers_groups']. Each element of ['renderers'] is a
    dictionary from an entity class to the layers rendered for it. *)
Record RenderersGroup : Type := {
  time_grid_params : TimeGridParams;
  renderers : list (gmap string (list string))
}.

Record RendererConfig : Type := {
  feature_map_params : FeatureMapParams;
  renderers_groups : list RenderersGroup
}.

Definition RENDERER_CONFIG : RendererConfig := {|
  feature_map_params := {| rows := 400; cols := 400; resolution := (1 # 4)%Q |};
  renderers_groups := [
    {| time_grid_params := {| start := 0; stop := 0; step := 1 |};
       renderers := [
         {[ "vehicles" := ["occupancy"; "velocity"; "acceleration"; "yaw"] ]};
         {[ "pedestrians" := ["occupancy"; "velocity"] ]}
       ] |};
    {| time_grid_params := {| start := 0; stop := 0; step := 1 |};
       renderers := [
         {[ "road_graph" := [
              "crosswalk_occupancy";
              "crosswalk_availability";
              "lane_availability";
              "lane_direction";
              "lane_occupancy";
              "lane_priority";
              "lane_speed_limit";
              "road_polygons" ] ]}
       ] |}
  ]
|}.

(** The comment next to the pedestrians entry of the literal: "only
    occupancy and velocity are available for pedestrians". *)
Definition pedestrians_available : list string := ["occupancy"; "velocity"].

(** The invariant of a time grid. *)
Definition time_grid_ok (g : TimeGridParams) : Prop :=
  0 ≤ start g ∧ start g ≤ stop g ∧ 1 ≤ step g.

(** The layers a renderers dictionary names for pedestrians, if it has
    that key, are all available for pedestrians. *)
Definition pedestrians_ok (r : gmap string (list string)) : Prop :=
  match r !! "pedestrians" with
  | Some layers => Forall (λ layer, layer ∈ pedestrians_available) layers
  | None => True
  end.

(** What the configuration is checked for, group by group. *)
Definition group_ok (group : RenderersGroup) : Prop :=
  time_grid_ok (time_grid_params group)
  ∧ Forall pedestrians_ok (renderers group).

End constants.

(* ===================================================================== *)
(** ** The specification's vocabulary                                     *)
(* ===================================================================== *)

(** The elements of [l] at the indices of the half-open range [[a, b)], in
    the order of [l]. *)
Definition index_range {A} (l : list A) (a b : Z) : list A :=
  (filter (λ p : Z * A, a ≤ p.1 < b) (enumerate l)).*2.

(** The paths whose tag record, at the same position, satisfies the
    predicate; [zip] stops at the end of the shorter list. *)
Definition accepted_paths {T} (accept : T → bool)
    (file_paths : list string) (records : list T) : list string :=
  (filter (λ p : string * T, accept p.2 = true) (zip file_paths records)).*1.

Section Vocabulary.
Context `{Collaborators}.

(** Every line of the tag file parses, and [records] are the parsed
    records, line by line. *)
Definition parsed_as (lines : list string) (records : list JSON) : Prop :=
  Forall2 (λ line tags, json_loads (str_strip line) = inr tags) lines records.

(** A request for which an example is produced: the validator accepts it
    and its trajectory tags satisfy the dataset's predicate. *)
Definition eligible (self : MotionPredictionDataset) (scene : Scene)
    (request : Request) : Prop :=
  request_is_valid scene request = true
  ∧ _trajectory_tags_filter self (get_tags_from_request request) = true.

#[global] Instance eligible_dec self scene request :
  Decision (eligible self scene request).
Proof. unfold eligible. apply _. Defined.

(** The path list decodes, file by file, to the scenes. *)
Definition decoded_as (file_paths : list string) (scenes : list Scene) : Prop :=
  Forall2 (λ fpath scene, decode fpath = Ok scene) file_paths scenes.

(** The eligible requests of a list of scenes, each with its scene: scene
    by scene in the order of the list and, inside a scene, in the order of
    its requests. *)
Definition eligible_requests (self : MotionPredictionDataset)
    (scenes : list Scene) : list (Scene * Request) :=
  scene ← scenes;
  (λ request, (scene, request))
    <$> filter (eligible self scene) (prediction_requests scene).

(** The examples are those of the scene-request pairs, one for one. *)
Definition examples_of (self : MotionPredictionDataset)
    (pairs : list (Scene * Request)) (examples : list (gmap string Array))
  : Prop :=
  Forall2 (λ sr example, make_result self sr.1 sr.2 = Ok example)
    pairs examples.

End Vocabulary.

(* ===================================================================== *)
(** ** A concrete instance, for the examples                              *)
(* ===================================================================== *)

Module Fixture.

(** A request names a track, says whether that track has a state at the
    prediction time, and carries its trajectory tags. *)
Record request : Type := {
  rq_track : Z;
  rq_has_state : bool;
  rq_tags : list string
}.

Definition moving (t : Z) : request :=
  {| rq_track := t; rq_has_state := true; rq_tags := ["kMoveForward"] |}.
Definition absent (t : Z) : request :=
  {| rq_track := t; rq_has_state := false; rq_tags := ["kMoveForward"] |}.

(** A parser for the JSON documents [true] and [false]; on the other
    texts used below, [json.loads] fails where this one does. *)
Definition loads (doc : string) : (string * Z) + bool :=
  if decide (doc = "true") then inr true
  else if decide (doc = "false") then inr false
  else inl ("Expecting value", 0).

Fixpoint lstrip (s : string) : string :=
  match s with
  | String c s' => if Ascii.is_space c then lstrip s' else s
  | EmptyString => EmptyString
  end.
Definition strip (s : string) : string :=
  String.rev (lstrip (String.rev (lstrip s))).

(** Three requests, the second for a track without a state at the
    prediction time. *)
Definition scene0 : list request := [moving 1; absent 2; moving 3].

Definition scene_of (path : string) : result (list request) :=
  if decide (path = "s0.pb") then Ok scene0
  else if decide (path = "s1.pb") then Ok [moving 4]
  else Raise (OSError path).

(** The lines of a text file, each ended by its newline character. *)
Definition line (text : string) : string :=
  text +:+ String (Ascii.ascii_of_nat 10) EmptyString.
Definition text_lines (texts : list string) : list string := line <$> texts.

Definition lines_of (fpath : string) : option (list string) :=
  if decide (fpath = "tags.txt") then Some (text_lines ["true"; "false"])
  else if decide (fpath = "long.txt")
       then Some (text_lines ["true"; "false"; "true"])
  else if decide (fpath = "short.txt") then Some (text_lines ["true"])
  else if decide (fpath = "bad1.txt") then Some (text_lines ["oops"; "true"])
  else if decide (fpath = "bad2.txt") then Some (text_lines ["true"; "oops"])
  else None.

(** The latest state of a track: there is none, and the search for it
    raises, unless the scene has the track at the prediction time. *)
Definition track_of (scene : list request) (t : Z) : result Z :=
  if existsb (λ r, (rq_track r =? t) && rq_has_state r) scene
  then Ok t
  else Raise (RuntimeError "generator raised StopIteration").

Definition world : Collaborators := {|
  Scene := list request;
  Request := request;
  Track := Z;
  Transform := Z * Z;
  Array := list (Z * Z);
  TrajectoryTags := list string;
  JSON := bool;
  prediction_requests := λ scene, scene;
  track_id := rq_track;
  get_tags_from_request := rq_tags;
  get_file_paths := λ _, ["s0.pb"; "s1.pb"];
  request_is_valid := λ _ request, rq_has_state request;
  get_track_for_transform := track_of;
  get_to_track_frame_transform := λ t, Ok (t, 0);
  get_gt_trajectory := λ _ t, Ok [(t + 1, 0); (2 * t + 2, 0)];
  transform2dpoints := λ points tf,
    Ok ((λ p, (p.1 - tf.1, p.2 - tf.2)) <$> points);
  decode := scene_of;
  json_loads := loads;
  str_strip := strip;
  file_lines := lines_of
|}.

(** A producer of one feature map, and one that also emits the key of the
    ground truth. *)
Definition producer : @FeatureProducer world :=
  {| produce_features := λ _ _, Ok {[ "feature_maps" := [(0, 0)] ]} |}.
Definition colliding_producer : @FeatureProducer world :=
  {| produce_features := λ _ _,
       Ok {[ "feature_maps" := [(0, 0)];
             "ground_truth_trajectory" := [(7, 7)] ]} |}.

(** A scene tags filter: the record itself, [true] or [false]. *)
Definition is_true (tags : bool) : bool := tags.

Definition dataset (paths : list string) : @MotionPredictionDataset world :=
  {| _feature_producer := producer;
     _transform_ground_truth_to_agent_frame := true;
     _scene_tags_filter := _trivial_filter;
     _trajectory_tags_filter := _trivial_filter;
     _scene_file_paths := paths |}.

Definition filtered_dataset (paths : list string)
  : @MotionPredictionDataset world :=
  {| _feature_producer := producer;
     _transform_ground_truth_to_agent_frame := true;
     _scene_tags_filter := is_true;
     _trajectory_tags_filter := _trivial_filter;
     _scene_file_paths := paths |}.

Definition colliding_dataset (paths : list string)
  : @MotionPredictionDataset world :=
  {| _feature_producer := colliding_producer;
     _transform_ground_truth_to_agent_frame := true;
     _scene_tags_filter := _trivial_filter;
     _trajectory_tags_filter := _trivial_filter;
     _scene_file_paths := paths |}.

(** A producer that fails on the request for track 3. *)
Definition failing_producer : @FeatureProducer world :=
  @Build_FeatureProducer world (λ _ (tf : Z * Z),
    if tf.1 =? 3 then Raise (RuntimeError "render failed")
    else Ok {[ "feature_maps" := [(0, 0)] ]}).

Definition failing_dataset (paths : list string)
  : @MotionPredictionDataset world :=
  {| _feature_producer := failing_producer;
     _transform_ground_truth_to_agent_frame := true;
     _scene_tags_filter := _trivial_filter;
     _trajectory_tags_filter := _trivial_filter;
     _scene_file_paths := paths |}.

(** A stricter scene tags filter than [is_true]: it accepts nothing. *)
Definition never (tags : bool) : bool := false.

End Fixture.

(* ===================================================================== *)
(** ** Facts about the Python primitives                                  *)
(* ===================================================================== *)

Section PyFacts.
Context {A : Type}.
Implicit Types (l : list A) (i a b : Z).

Lemma getitem_lookup l i x :
  0 ≤ i → l !! Z.to_nat i = Some x → getitem l i = Ok x.
Proof.
  intros Hi Hx. unfold getitem.
  destruct (Z.ltb_spec i 0); [lia|].
  destruct (Z.ltb_spec i 0); [lia|]. by rewrite Hx.
Qed.

Lemma getitem_beyond l i :
  Z.of_nat (length l) ≤ i → getitem l i = Raise IndexError.
Proof.
  intros Hi. unfold getitem.
  destruct (Z.ltb_spec i 0); [lia|].
  destruct (Z.ltb_spec i 0); [lia|].
  rewrite lookup_ge_None_2; [done | lia].
Qed.

Lemma adjust_index_inside n i : 0 ≤ i ≤ n → adjust_index n i = i.
Proof.
  intros Hi. unfold adjust_index.
  destruct (Z.ltb_spec i 0); [lia|].
  destruct (Z.ltb_spec i 0); [lia|].
  destruct (Z.leb_spec n i); lia.
Qed.

Lemma slice_inside l a b :
  0 ≤ a → a ≤ b → b ≤ Z.of_nat (length l) →
  slice l a b = take (Z.to_nat (b - a)) (drop (Z.to_nat a) l).
Proof.
  intros Ha Hab Hb. unfold slice.
  by rewrite !adjust_index_inside by lia.
Qed.

Lemma enumerate_from_range l i a b :
  (filter (λ p : Z * A, a ≤ p.1 < b) (enumerate_from i l)).*2
  = take (Z.to_nat (b - a `max` i)) (drop (Z.to_nat (a - i)) l).
Proof.
  revert i. induction l as [|x l IH]; intros i; simpl.
  - by rewrite drop_nil, take_nil.
  - rewrite filter_cons. simpl. case_decide as Hin.
    + simpl. rewrite IH.
      replace (Z.to_nat (a - i)) with 0%nat by lia.
      replace (Z.to_nat (a - (i + 1))) with 0%nat by lia.
      replace (Z.to_nat (b - a `max` i))
        with (S (Z.to_nat (b - a `max` (i + 1)))) by lia.
      done.
    + rewrite IH. destruct (decide (i < a)) as [Hlt|Hge].
      * replace (Z.to_nat (a - i)) with (S (Z.to_nat (a - (i + 1)))) by lia.
        simpl. do 2 f_equal. lia.
      * replace (Z.to_nat (b - a `max` i)) with 0%nat by lia.
        replace (Z.to_nat (b - a `max` (i + 1))) with 0%nat by lia.
        done.
Qed.

Lemma index_range_take_drop l a b :
  0 ≤ a →
  index_range l a b = take (Z.to_nat (b - a)) (drop (Z.to_nat a) l).
Proof.
  intros Ha. unfold index_range, enumerate.
  rewrite enumerate_from_range. do 2 f_equal; lia.
Qed.

Lemma comprehension_fmap {B} (f : B → result A) (g : B → A) (xs : list B) :
  (∀ x, x ∈ xs → f x = Ok (g x)) → comprehension f xs = Ok (g <$> xs).
Proof.
  induction xs as [|x xs IH]; intros Hf; simpl; [done|].
  rewrite Hf by left. simpl.
  rewrite IH; [done|]. intros y Hy. apply Hf. by right.
Qed.

Lemma NoDup_concat_disjoint (ls : list (list A)) (i j : nat) s1 s2 :
  NoDup (concat ls) → i ≠ j → ls !! i = Some s1 → ls !! j = Some s2 →
  s1 ## s2.
Proof.
  revert i j. induction ls as [|s ls IH]; intros i j Hnd Hij H1 H2; [done|].
  simpl in Hnd. apply NoDup_app in Hnd as (_ & Hsep & Hnd).
  destruct i as [|i], j as [|j]; simplify_eq/=.
  - intros x Hx1 Hx2. apply (Hsep x Hx1).
    apply list_elem_of_In, in_concat. exists s2.
    split; apply list_elem_of_In; [by eapply list_elem_of_lookup_2 | done].
  - intros x Hx1 Hx2. apply (Hsep x Hx2).
    apply list_elem_of_In, in_concat. exists s1.
    split; apply list_elem_of_In; [by eapply list_elem_of_lookup_2 | done].
  - eapply (IH i j); eauto.
Qed.

End PyFacts.

Lemma range_from_zero stop step :
  0 < step → 0 < stop →
  range 0 stop step
  = Ok ((λ k, 0 + k * step) <$> seqZ 0 ((stop - 1) `div` step + 1)).
Proof.
  intros Hstep Hstop. unfold range, range_length.
  destruct (Z.eqb_spec step 0); [lia|].
  destruct (Z.ltb_spec 0 step); [|lia].
  destruct (Z.ltb_spec 0 stop); [|lia].
  by rewrite Z.sub_0_r.
Qed.

Lemma getitem_range (f : Z → Z) n i :
  0 ≤ i < n → getitem (f <$> seqZ 0 n) i = Ok (f i).
Proof.
  intros Hi. apply getitem_lookup; [lia|].
  rewrite list_lookup_fmap, lookup_seqZ_lt by lia. simpl. f_equal. f_equal. lia.
Qed.

(* ===================================================================== *)
(** ** Sharding of the scene files across workers                         *)
(* ===================================================================== *)

Section Sharding.
Context `{Collaborators}.
Implicit Types (self : MotionPredictionDataset) (w W : Z).

(** The bounds that worker [w] of [W] slices the path list with. *)
Lemma split_bounds self w W :
  1 ≤ W → W ≤ num_scenes self → 0 ≤ w < W →
  let chunk := num_scenes self `div` W in
  _split_filepaths_by_worker self w W
  = Ok (slice (_scene_file_paths self) (w * chunk)
          (if w =? W - 1 then num_scenes self else (w + 1) * chunk)).
Proof.
  intros HW HN Hw chunk. unfold _split_filepaths_by_worker, floordiv.
  destruct (Z.eqb_spec W 0); [lia|]. simpl. fold chunk.
  assert (1 ≤ chunk) as Hc.
  { unfold chunk. apply Z.div_le_lower_bound; lia. }
  assert (W * chunk ≤ num_scenes self) as Hmul.
  { unfold chunk. apply Z.mul_div_le. lia. }
  clearbody chunk.
  assert (W - 1 ≤ (num_scenes self - 1) `div` chunk) as Hlen.
  { apply Z.div_le_lower_bound; [lia|].
    rewrite Z.mul_sub_distr_l, (Z.mul_comm chunk W). lia. }
  rewrite range_from_zero by lia. simpl.
  generalize dependent ((num_scenes self - 1) `div` chunk). intros q Hq.
  rewrite (getitem_range _ _ w) by lia. simpl.
  destruct (Z.eqb_spec w (W - 1)) as [->|Hne]; simpl; [done|].
  rewrite (getitem_range _ _ (w + 1)) by lia. done.
Qed.

Lemma split_index_range self w W :
  1 ≤ W → W ≤ num_scenes self → 0 ≤ w < W →
  let chunk := num_scenes self `div` W in
  _split_filepaths_by_worker self w W
  = Ok (index_range (_scene_file_paths self) (w * chunk)
          (if w =? W - 1 then num_scenes self else (w + 1) * chunk)).
Proof.
  intros HW HN Hw chunk. rewrite split_bounds by done. fold chunk.
  assert (1 ≤ chunk) as Hc.
  { unfold chunk. apply Z.div_le_lower_bound; lia. }
  assert (W * chunk ≤ num_scenes self) as Hmul.
  { unfold chunk. apply Z.mul_div_le. lia. }
  clearbody chunk.
  rewrite index_range_take_drop by nia. f_equal.
  apply slice_inside; unfold num_scenes in *;
    destruct (Z.eqb_spec w (W - 1)); nia.
Qed.

(** Whenever there are more workers than scenes, no worker gets a shard:
    the step of the [range] is zero. *)
Lemma split_degenerate self w W :
  num_scenes self < W →
  _split_filepaths_by_worker self w W
  = Raise (ValueError "range() arg 3 must not be zero").
Proof.
  intros HW. unfold _split_filepaths_by_worker, floordiv.
  assert (0 ≤ num_scenes self) by (unfold num_scenes; lia).
  destruct (Z.eqb_spec W 0); [lia|]. simpl.
  rewrite Z.div_small by lia. done.
Qed.

(** The first [k] full chunks, put end to end, are the first [k * c]
    elements. *)
Lemma concat_chunks {A} (l : list A) (c k : nat) :
  concat ((λ i : nat, take c (drop (i * c) l)) <$> seq 0 k) = take (k * c) l.
Proof.
  induction k as [|k IH]; [done|].
  rewrite seq_S, fmap_app, concat_app, IH. simpl.
  rewrite app_nil_r, take_take_drop. f_equal. lia.
Qed.

(** Claim C1. For a dataset of [N >= 1] scene files and a worker count [W]
    with [1 <= W <= N], with [chunk = N // W]: every worker [w < W - 1]
    receives the paths at the indices [[w*chunk, (w+1)*chunk)], the last
    worker receives those at [[(W-1)*chunk, N)]; every shard but the last
    has [chunk] elements; the shards of workers [0 .. W-1], put end to end
    in worker order, are the path list itself; and, the paths being
    distinct, two different shards have no path in common. *)
Theorem sharding_partition self W :
  1 ≤ num_scenes self → 1 ≤ W ≤ num_scenes self →
  let paths := _scene_file_paths self in
  let N := num_scenes self in
  let chunk := N `div` W in
  (∀ w, 0 ≤ w < W - 1 →
     _split_filepaths_by_worker self w W
     = Ok (index_range paths (w * chunk) ((w + 1) * chunk)))
  ∧ _split_filepaths_by_worker self (W - 1) W
    = Ok (index_range paths ((W - 1) * chunk) N)
  ∧ (∀ w shard, 0 ≤ w < W - 1 →
       _split_filepaths_by_worker self w W = Ok shard →
       Z.of_nat (length shard) = chunk)
  ∧ ∃ shards,
      comprehension (λ w, _split_filepaths_by_worker self w W) (seqZ 0 W)
      = Ok shards
      ∧ concat shards = paths
      ∧ (NoDup paths → ∀ (i j : nat) s1 s2, i ≠ j →
           shards !! i = Some s1 → shards !! j = Some s2 → s1 ## s2).
Proof.
  intros HN [HW HWN] paths N chunk.
  assert (1 ≤ chunk) as Hc.
  { unfold chunk. apply Z.div_le_lower_bound; lia. }
  assert (W * chunk ≤ N) as Hmul.
  { unfold chunk. apply Z.mul_div_le. lia. }
  assert (∀ w, 0 ≤ w < W - 1 →
     _split_filepaths_by_worker self w W
     = Ok (index_range paths (w * chunk) ((w + 1) * chunk))) as Hfull.
  { intros w Hw. rewrite split_index_range by lia.
    destruct (Z.eqb_spec w (W - 1)); [lia|done]. }
  assert (_split_filepaths_by_worker self (W - 1) W
    = Ok (index_range paths ((W - 1) * chunk) N)) as Hlast.
  { rewrite split_index_range by lia. by rewrite Z.eqb_refl. }
  split; [done|]. split; [done|]. split.
  { intros w shard Hw. rewrite Hfull by done. intros [= <-].
    clearbody chunk.
    rewrite index_range_take_drop, length_take, length_drop by nia.
    unfold N, num_scenes in *. fold paths in Hmul |- *. nia. }
  set (shard_of := λ w, index_range paths (w * chunk)
                          (if w =? W - 1 then N else (w + 1) * chunk)).
  exists (shard_of <$> seqZ 0 W).
  assert (concat (shard_of <$> seqZ 0 W) = paths) as Hcat.
  { clearbody chunk.
    replace W with (Z.of_nat (S (Z.to_nat (W - 1)))) at 1 by lia.
    rewrite seqZ_S, fmap_app, concat_app. simpl. rewrite app_nil_r.
    unfold seqZ at 1. rewrite Nat2Z.id, <- list_fmap_compose.
    rewrite (list_fmap_ext _
      (λ i : nat, take (Z.to_nat chunk) (drop (i * Z.to_nat chunk) paths))).
    2:{ intros i k [Hk Hi]%lookup_seq. simpl in Hk. subst i.
        simpl. unfold shard_of.
        destruct (Z.eqb_spec (Z.of_nat k + 0) (W - 1)); [lia|].
        rewrite index_range_take_drop by nia. f_equal; [f_equal; lia|].
        f_equal. nia. }
    rewrite concat_chunks. unfold shard_of.
    replace (0 + Z.of_nat (Z.to_nat (W - 1))) with (W - 1) by lia.
    rewrite Z.eqb_refl, index_range_take_drop by nia.
    rewrite (take_ge (drop _ _)).
    2:{ rewrite length_drop. unfold N, num_scenes. fold paths. nia. }
    replace (Z.to_nat ((W - 1) * chunk))
      with (Z.to_nat (W - 1) * Z.to_nat chunk)%nat by nia.
    apply take_drop. }
  split; [|split; [done|]].
  - apply comprehension_fmap. intros w [Hw0 HwW]%elem_of_seqZ.
    unfold shard_of. by apply split_index_range; lia.
  - intros Hnd i j s1 s2 Hij H1 H2.
    eapply (NoDup_concat_disjoint _ i j); eauto. by rewrite Hcat.
Qed.

End Sharding.

(* ===================================================================== *)
(** ** Filtering the scene files by their tag records                     *)
(* ===================================================================== *)

Section FilterPaths.
Context `{Collaborators}.
Implicit Types (accept : JSON → bool) (file_paths : list string)
  (lines : list string) (records : list JSON).

(** With every line parsing, the loop collects the positions of the
    accepted records, in increasing order. *)
Lemma collect_valid_indices_parsed accept lines records i acc :
  parsed_as lines records →
  collect_valid_indices accept (enumerate_from i lines) acc
  = Ok (acc ++ (filter (λ p : Z * JSON, accept p.2 = true)
                  (enumerate_from i records)).*1).
Proof.
  intros Hparsed. revert i acc.
  induction Hparsed as [|line tags lines records Hline _ IH]; intros i acc.
  - simpl. by rewrite app_nil_r.
  - simpl. unfold loads_stripped. rewrite Hline. simpl.
    rewrite filter_cons. simpl. destruct (accept tags) eqn:Hacc.
    + rewrite IH, decide_True by done. simpl. by rewrite <- app_assoc.
    + rewrite IH, decide_False by done. done.
Qed.

(** A line that does not parse ends the loop with the exception of
    [json.loads] for the first such line. *)
Lemma collect_valid_indices_malformed accept lines (n : nat) line i acc :
  lines !! n = Some line →
  is_ok (loads_stripped line) = false →
  ∃ (m : nat) bad msg pos,
    (m ≤ n)%nat ∧ lines !! m = Some bad
    ∧ json_loads (str_strip bad) = inl (msg, pos)
    ∧ collect_valid_indices accept (enumerate_from i lines) acc
      = Raise (JSONDecodeError msg (str_strip bad) pos).
Proof.
  revert n i acc. induction lines as [|l lines IH]; intros n i acc Hn Hbad;
    [done|].
  destruct (json_loads (str_strip l)) as [[msg pos]|tags] eqn:Hl.
  - exists 0%nat, l, msg, pos. repeat split; [lia|done|].
    simpl. unfold loads_stripped. by rewrite Hl.
  - destruct n as [|n].
    { simplify_eq/=. unfold loads_stripped in Hbad. by rewrite Hl in Hbad. }
    simpl in Hn.
    assert (∀ acc', ∃ (m : nat) bad msg pos,
      (m ≤ n)%nat ∧ lines !! m = Some bad
      ∧ json_loads (str_strip bad) = inl (msg, pos)
      ∧ collect_valid_indices accept (enumerate_from (i + 1) lines) acc'
        = Raise (JSONDecodeError msg (str_strip bad) pos)) as Hrest
      by (intros acc'; by eapply IH).
    simpl. unfold loads_stripped at 1. rewrite Hl. simpl.
    destruct (accept tags);
      [destruct (Hrest (acc ++ [i])) as (m & bad & msg & pos & ? & ? & ? & ?)
      |destruct (Hrest acc) as (m & bad & msg & pos & ? & ? & ? & ?)];
      exists (S m), bad, msg, pos; repeat split; auto with lia.
Qed.

(** Looking the accepted positions up in the path list: an accepted
    record beyond the last path raises, otherwise the paths at the
    accepted positions come out. *)
Lemma lookup_accepted accept file_paths records (i : nat) :
  comprehension (getitem file_paths)
    (filter (λ p : Z * JSON, accept p.2 = true)
       (enumerate_from (Z.of_nat i) records)).*1
  = if existsb accept (drop (length (drop i file_paths)) records)
    then Raise IndexError
    else Ok (accepted_paths accept (drop i file_paths) records).
Proof.
  revert i. induction records as [|tags records IH]; intros i.
  - simpl. rewrite drop_nil. simpl. unfold accepted_paths.
    by rewrite zip_with_nil_r.
  - simpl. rewrite filter_cons. simpl.
    replace (Z.of_nat i + 1) with (Z.of_nat (S i)) by lia.
    destruct (file_paths !! i) as [p|] eqn:Hp.
    + rewrite (drop_S _ _ _ Hp). simpl. unfold accepted_paths. simpl.
      rewrite filter_cons. simpl. destruct (accept tags) eqn:Hacc.
      * rewrite !decide_True by done. simpl.
        rewrite (getitem_lookup _ _ p), IH by (rewrite ?Nat2Z.id; done || lia).
        simpl. by destruct (existsb _ _).
      * rewrite !decide_False by done. by rewrite IH.
    + apply lookup_ge_None in Hp.
      rewrite (drop_ge file_paths i) by done.
      specialize (IH (S i)). rewrite (drop_ge file_paths (S i)) in IH by lia.
      simpl in *. destruct (accept tags) eqn:Hacc.
      * rewrite decide_True by done. simpl.
        rewrite getitem_beyond by lia. done.
      * rewrite decide_False by done. done.
Qed.

(** The outcome of [_filter_paths] on a tag file all of whose lines
    parse. *)
Lemma filter_paths_parsed accept file_paths fpath lines records :
  file_lines fpath = Some lines →
  parsed_as lines records →
  outcome (_filter_paths accept file_paths fpath)
  = if existsb accept (drop (length file_paths) records)
    then Raise IndexError
    else Ok (accepted_paths accept file_paths records).
Proof.
  intros Hopen Hparsed. unfold _filter_paths, open_lines, enumerate.
  rewrite Hopen. simpl.
  rewrite (collect_valid_indices_parsed _ _ records) by done. simpl.
  apply (lookup_accepted accept file_paths records 0).
Qed.

Lemma accepted_paths_sublist {T} (accept : T → bool) file_paths (records : list T) :
  sublist (accepted_paths accept file_paths records) file_paths.
Proof.
  revert records. induction file_paths as [|p ps IH]; intros [|t ts];
    unfold accepted_paths; simpl; try apply sublist_nil_l.
  rewrite filter_cons. simpl. case_decide; simpl.
  - apply sublist_skip, IH.
  - apply sublist_cons, IH.
Qed.

Lemma accepted_paths_all {T} (accept : T → bool) file_paths (records : list T) :
  (∀ t, accept t = true) → length records = length file_paths →
  accepted_paths accept file_paths records = file_paths.
Proof.
  intros Hall. revert records.
  induction file_paths as [|p ps IH]; intros [|t ts] Hlen;
    simplify_eq/=; [done|].
  unfold accepted_paths. simpl. rewrite filter_cons, decide_True by apply Hall.
  simpl. f_equal. by apply IH.
Qed.

(** The constructor in tag-filter mode, once both predicates are
    resolved. *)
Lemma init_tag_mode dataset_path fpath producer to_agent_frame
    stf_arg ttf_arg stf ttf :
  _callable_or_trivial_filter stf_arg = Ok stf →
  _callable_or_trivial_filter ttf_arg = Ok ttf →
  outcome (__init__ dataset_path fpath producer to_agent_frame
            stf_arg ttf_arg None)
  = paths ← outcome (_filter_paths stf (get_file_paths dataset_path) fpath);
    Ok {| _feature_producer := producer;
          _transform_ground_truth_to_agent_frame := to_agent_frame;
          _scene_tags_filter := stf;
          _trajectory_tags_filter := ttf;
          _scene_file_paths := paths |}.
Proof.
  intros Hstf Httf. unfold __init__. rewrite Hstf, Httf. simpl.
  by destruct (outcome (_filter_paths _ _ _)).
Qed.

(** Claim C5. For [N] scene paths and a tag file of [N] records,
    [_filter_paths] returns exactly the paths whose record, at the same
    position, satisfies the predicate, in their original relative order;
    with a predicate that is always true the result is the path list
    unchanged, and so it is for a dataset constructed without a scene tags
    filter. *)
Theorem tag_filter_selects accept file_paths fpath lines records :
  file_lines fpath = Some lines →
  parsed_as lines records →
  length records = length file_paths →
  outcome (_filter_paths accept file_paths fpath)
  = Ok (accepted_paths accept file_paths records)
  ∧ sublist (accepted_paths accept file_paths records) file_paths
  ∧ ((∀ tags, accept tags = true) →
     outcome (_filter_paths accept file_paths fpath) = Ok file_paths)
  ∧ (∀ dataset_path producer to_agent_frame ttf_arg,
       get_file_paths dataset_path = file_paths →
       is_ok (_callable_or_trivial_filter ttf_arg) = true →
       ∃ self,
         outcome (__init__ dataset_path fpath producer to_agent_frame
                   PyNone ttf_arg None) = Ok self
         ∧ _scene_file_paths self = file_paths).
Proof.
  intros Hopen Hparsed Hlen.
  assert (outcome (_filter_paths accept file_paths fpath)
          = Ok (accepted_paths accept file_paths records)) as Hres.
  { rewrite (filter_paths_parsed _ _ _ lines records) by done.
    by rewrite drop_ge by lia. }
  split; [done|]. split; [apply accepted_paths_sublist|]. split.
  - intros Hall. by rewrite Hres, accepted_paths_all.
  - intros dataset_path producer to_agent_frame ttf_arg Hpaths Httf.
    destruct (_callable_or_trivial_filter ttf_arg) as [ttf|] eqn:Hcall;
      [|done].
    rewrite (init_tag_mode _ _ _ _ _ _ _trivial_filter ttf) by done.
    rewrite Hpaths, (filter_paths_parsed _ _ _ lines records) by done.
    rewrite drop_ge by lia. simpl. eexists. split; [done|]. simpl.
    by apply accepted_paths_all.
Qed.

(** Claim C3, as the code has it. When the tag file has fewer records
    than there are paths, [_filter_paths] silently keeps to the records:
    it returns the accepted paths among the first ones and raises nothing.
    When the tag file has more records than there are paths, it raises
    [IndexError] if the predicate accepts a record beyond the last path,
    and otherwise returns the accepted paths. *)
Theorem filter_paths_length_mismatch accept file_paths fpath lines records :
  file_lines fpath = Some lines →
  parsed_as lines records →
  ((length records < length file_paths)%nat →
   outcome (_filter_paths accept file_paths fpath)
   = Ok (accepted_paths accept file_paths records))
  ∧ ((length file_paths < length records)%nat →
     outcome (_filter_paths accept file_paths fpath)
     = if existsb accept (drop (length file_paths) records)
       then Raise IndexError
       else Ok (accepted_paths accept file_paths records)).
Proof.
  intros Hopen Hparsed.
  rewrite (filter_paths_parsed _ _ _ lines records) by done.
  split; intros Hlen; [|done]. by rewrite drop_ge by lia.
Qed.

(** Claim C6, as the code has it. When record [i] of the tag file fails
    to parse, [_filter_paths] fails as a whole, right after opening the
    file and before reporting or returning anything, with the
    [JSONDecodeError] that [json.loads] raises on the first record that
    fails to parse (record [i] or an earlier one); the exception carries
    the message, the text of that record and the position in that text. *)
Theorem malformed_tag_record accept file_paths fpath lines (i : nat) line :
  file_lines fpath = Some lines →
  lines !! i = Some line →
  is_ok (loads_stripped line) = false →
  ∃ (j : nat) bad msg pos,
    (j ≤ i)%nat ∧ lines !! j = Some bad
    ∧ json_loads (str_strip bad) = inl (msg, pos)
    ∧ _filter_paths accept file_paths fpath
      = MkEff [EvOpen fpath] (Raise (JSONDecodeError msg (str_strip bad) pos)).
Proof.
  intros Hopen Hi Hbad.
  destruct (collect_valid_indices_malformed accept lines i line 0 [] Hi Hbad)
    as (j & bad & msg & pos & Hj & Hbadj & Hloads & Hloop).
  exists j, bad, msg, pos. repeat split; try done.
  unfold _filter_paths, open_lines, enumerate. rewrite Hopen. simpl.
  unfold Eff_bind at 1. simpl. unfold Eff_bind at 1. simpl. by rewrite Hloop.
Qed.

End FilterPaths.

(* ===================================================================== *)
(** ** Iteration                                                          *)
(* ===================================================================== *)

Section EffFacts.
Context {E : Type}.

Lemma bind_returned {A B} (xs : list E) (a : A) (f : A → Eff E B) :
  MkEff xs (Ok a) ≫= f = MkEff (xs ++ emitted (f a)) (outcome (f a)).
Proof. done. Qed.

Lemma emitted_bind {A B} (m : Eff E A) (f : A → Eff E B) (x : E) :
  x ∈ emitted (m ≫= f) →
  x ∈ emitted m ∨ ∃ a, outcome m = Ok a ∧ x ∈ emitted (f a).
Proof.
  unfold mbind, Eff_bind. destruct (outcome m) as [a|e]; simpl.
  - intros [Hm|Hf]%elem_of_app; eauto.
  - by left.
Qed.

Lemma emitted_for_each {A} (l : list A) (body : A → Eff E unit) (x : E) :
  x ∈ emitted (for_each l body) → ∃ a, a ∈ l ∧ x ∈ emitted (body a).
Proof.
  induction l as [|a l IH]; simpl.
  - by intros ?%elem_of_nil.
  - intros [Ha|(_ & _ & Hl)]%emitted_bind.
    + exists a. split; [left|done].
    + destruct (IH Hl) as (a' & Ha' & Hx). exists a'. split; [by right|done].
Qed.

End EffFacts.

Section Iteration.
Context `{Collaborators}.
Implicit Types (self : MotionPredictionDataset) (scene : Scene)
  (request : Request) (file_paths : list string).

Lemma scenes_generator_decoded file_paths (scenes : list Scene) :
  decoded_as file_paths scenes →
  scenes_generator file_paths = MkEff scenes (Ok tt).
Proof.
  unfold scenes_generator.
  induction 1 as [|fpath scene file_paths scenes Hdecode _ IH]; [done|].
  cbn [for_each]. rewrite Hdecode, IH. done.
Qed.

(** The requests of one scene: the eligible ones yield their example, the
    others yield nothing. *)
Lemma requests_examples self scene (requests : list Request) examples :
  examples_of self
    ((λ request, (scene, request)) <$> filter (eligible self scene) requests)
    examples →
  for_each requests (λ request, request_body self scene request)
  = MkEff examples (Ok tt).
Proof.
  revert examples. induction requests as [|request rest IH]; intros examples.
  - intros ->%Forall2_nil_inv_l. done.
  - rewrite filter_cons. cbn [for_each]. case_decide as Hel.
    + destruct Hel as [Hvalid Htags]. rewrite fmap_cons.
      intros (example & examples' & Hmake & Hrest & ->)%Forall2_cons_inv_l.
      simpl in Hmake. rewrite (IH _ Hrest). unfold request_body.
      rewrite Hvalid, Htags, Hmake. done.
    + intros Hrest. rewrite (IH _ Hrest). unfold request_body.
      destruct (request_is_valid scene request) eqn:Hvalid; [|done].
      destruct (_trajectory_tags_filter self _) eqn:Htags; [|done].
      by destruct Hel.
Qed.

Lemma scenes_examples self (scenes : list Scene) examples :
  examples_of self (eligible_requests self scenes) examples →
  for_each scenes (λ scene,
    for_each (prediction_requests scene) (λ request,
      request_body self scene request))
  = MkEff examples (Ok tt).
Proof.
  unfold eligible_requests. revert examples.
  induction scenes as [|scene rest IH]; intros examples.
  - intros ->%Forall2_nil_inv_l. done.
  - rewrite bind_cons.
    intros (here & there & Hhere & Hthere & ->)%Forall2_app_inv_l.
    cbn [for_each].
    rewrite (requests_examples _ _ _ _ Hhere), (IH _ Hthere). done.
Qed.

Lemma data_gen_examples self file_paths (scenes : list Scene) examples :
  decoded_as file_paths scenes →
  examples_of self (eligible_requests self scenes) examples →
  data_gen self file_paths = MkEff examples (Ok tt).
Proof.
  intros Hdecoded Hexamples. unfold data_gen, for_yielded.
  rewrite (scenes_generator_decoded _ _ Hdecoded). cbn [emitted outcome].
  rewrite (scenes_examples _ _ _ Hexamples), bind_returned.
  cbn [lift emitted outcome]. by rewrite app_nil_r.
Qed.

(** Whatever the generator yields was built for some request. *)
Lemma data_gen_emitted self file_paths example :
  example ∈ emitted (data_gen self file_paths) →
  ∃ scene request, make_result self scene request = Ok example.
Proof.
  unfold data_gen, for_yielded.
  intros [Hloop|(_ & _ & Hend)]%emitted_bind;
    [|by apply elem_of_nil in Hend].
  apply emitted_for_each in Hloop as (scene & _ & Hscene).
  apply emitted_for_each in Hscene as (request & _ & Hbody).
  exists scene, request. unfold request_body in Hbody.
  destruct (negb (request_is_valid scene request));
    [by apply elem_of_nil in Hbody|].
  destruct (negb (_trajectory_tags_filter self _));
    [by apply elem_of_nil in Hbody|].
  destruct (make_result self scene request) as [result|e];
    [|by apply elem_of_nil in Hbody].
  simpl in Hbody. apply list_elem_of_singleton in Hbody. by subst.
Qed.

(** Iteration reads every attribute of the dataset but the scene tags
    filter. *)
Lemma iter_ignores_scene_tags_filter self1 self2 get_worker_info :
  _feature_producer self1 = _feature_producer self2 →
  _transform_ground_truth_to_agent_frame self1
  = _transform_ground_truth_to_agent_frame self2 →
  _trajectory_tags_filter self1 = _trajectory_tags_filter self2 →
  _scene_file_paths self1 = _scene_file_paths self2 →
  __iter__ self1 get_worker_info = __iter__ self2 get_worker_info.
Proof.
  destruct self1 as [fp1 tg1 stf1 ttf1 ps1], self2 as [fp2 tg2 stf2 ttf2 ps2].
  simpl. intros -> -> -> ->. reflexivity.
Qed.

(** Claim C2. The driver yields one example per prediction request that
    passes the validator and the trajectory-tag predicate, scene file by
    scene file in the order of the worker's paths and, inside a scene, in
    the order of its requests; the other requests are skipped: nothing is
    computed for them and nothing is raised. In particular a scene of three
    requests of which the second is invalid yields two examples, that of
    the first request and then that of the third. *)
Theorem iteration_skips_invalid self :
  (∀ (scenes : list Scene) examples,
     decoded_as (_scene_file_paths self) scenes →
     examples_of self (eligible_requests self scenes) examples →
     __iter__ self None = Ok (MkEff examples (Ok tt)))
  ∧ (∀ worker_info shard (scenes : list Scene) examples,
       _split_filepaths_by_worker self (worker_info.id worker_info)
         (worker_info.num_workers worker_info) = Ok shard →
       decoded_as shard scenes →
       examples_of self (eligible_requests self scenes) examples →
       __iter__ self (Some worker_info) = Ok (MkEff examples (Ok tt)))
  ∧ (∀ path scene r0 r1 r2 example0 example2,
       _scene_file_paths self = [path] →
       decode path = Ok scene →
       prediction_requests scene = [r0; r1; r2] →
       eligible self scene r0 →
       request_is_valid scene r1 = false →
       eligible self scene r2 →
       make_result self scene r0 = Ok example0 →
       make_result self scene r2 = Ok example2 →
       __iter__ self None = Ok (MkEff [example0; example2] (Ok tt))).
Proof.
  split; [|split].
  - intros scenes examples Hdecoded Hexamples. unfold __iter__. simpl.
    by rewrite (data_gen_examples _ _ scenes examples).
  - intros wi shard scenes examples Hshard Hdecoded Hexamples.
    unfold __iter__. rewrite Hshard. simpl.
    by rewrite (data_gen_examples _ _ scenes examples).
  - intros path scene r0 r1 r2 example0 example2
      Hpaths Hdecode Hreqs [Hv0 Ht0] Hv1 [Hv2 Ht2] Hmake0 Hmake2.
    unfold __iter__. simpl. f_equal.
    apply (data_gen_examples _ _ [scene]).
    + rewrite Hpaths. by repeat constructor.
    + unfold eligible_requests. rewrite bind_cons. simpl mbind.
      rewrite app_nil_r, Hreqs, !filter_cons, filter_nil.
      rewrite decide_True by done.
      rewrite decide_False by (intros [Hv _]; congruence).
      rewrite decide_True by done.
      by repeat constructor.
Qed.

(** Claim C10. Every yielded example is the dictionary built for some
    request, and building it, once the helpers have returned, inserts
    ['ground_truth_trajectory'] first and then merges in the whole output
    of the feature producer, raising nothing: every key of the producer's
    output is in the example with the producer's value, the key
    ['ground_truth_trajectory'] included, in which case the computed
    ground truth is replaced; the computed ground truth is kept when the
    producer does not emit that key. *)
Theorem producer_key_collision self :
  (∀ file_paths example,
     example ∈ emitted (data_gen self file_paths) →
     ∃ scene request, make_result self scene request = Ok example)
  ∧ ∀ scene request track tf trajectory ground_truth features,
      get_track_for_transform scene (track_id request) = Ok track →
      get_to_track_frame_transform track = Ok tf →
      get_gt_trajectory scene (track_id request) = Ok trajectory →
      (if _transform_ground_truth_to_agent_frame self
       then transform2dpoints trajectory tf
       else Ok trajectory) = Ok ground_truth →
      produce_features (_feature_producer self) scene tf = Ok features →
      ∃ example,
        make_result self scene request = Ok example
        ∧ (∀ key value, features !! key = Some value →
             example !! key = Some value)
        ∧ (features !! "ground_truth_trajectory" = None →
           example !! "ground_truth_trajectory" = Some ground_truth)
        ∧ dom example = dom features ∪ {[ "ground_truth_trajectory" ]}.
Proof.
  split; [apply data_gen_emitted|].
  intros scene request track tf trajectory ground_truth features
    Htrack Htf Htrajectory Hgt Hfeatures.
  exists (dict_update {[ "ground_truth_trajectory" := ground_truth ]} features).
  split; [|split; [|split]].
  - unfold make_result. rewrite Htrack. simpl. rewrite Htf. simpl.
    rewrite Htrajectory. simpl. rewrite Hgt. simpl. by rewrite Hfeatures.
  - intros key value Hkey. by apply lookup_union_Some_l.
  - intros Hnone. unfold dict_update. rewrite lookup_union_r by done.
    by rewrite lookup_singleton_eq.
  - unfold dict_update. by rewrite dom_union_L, dom_singleton_L.
Qed.

End Iteration.

(* ===================================================================== *)
(** ** Construction                                                       *)
(* ===================================================================== *)

Section Construction.
Context `{Collaborators}.

(** What a successful construction leaves in the attributes. *)
Lemma init_attributes dataset_path fpath producer to_agent_frame
    stf_arg ttf_arg pre_filtered self :
  outcome (__init__ dataset_path fpath producer to_agent_frame
            stf_arg ttf_arg pre_filtered) = Ok self →
  _feature_producer self = producer
  ∧ _transform_ground_truth_to_agent_frame self = to_agent_frame
  ∧ _callable_or_trivial_filter ttf_arg = Ok (_trajectory_tags_filter self)
  ∧ ∀ l, pre_filtered = Some l → _scene_file_paths self = l.
Proof.
  unfold __init__.
  destruct (_callable_or_trivial_filter stf_arg) as [stf|]; [|done].
  destruct (_callable_or_trivial_filter ttf_arg) as [ttf|]; [|done].
  destruct pre_filtered as [l|]; simpl.
  - intros [= <-]. simpl. repeat split; try done. by intros ? [= ->].
  - destruct (outcome (_filter_paths _ _ _)); simpl; [|done].
    intros [= <-]. by repeat split.
Qed.

(** In pre-filtered mode the constructor performs no effect but its one
    [print]. *)
Lemma init_prefiltered_log dataset_path fpath producer to_agent_frame
    stf_arg ttf_arg l :
  emitted (__init__ dataset_path fpath producer to_agent_frame
            stf_arg ttf_arg (Some l))
  ⊆ [EvPrint ("Building MotionPredictionDataset with pre-filtered "
              +:+ "scene file paths.")].
Proof.
  unfold __init__.
  destruct (_callable_or_trivial_filter stf_arg) as [stf|];
    [|by apply list_subseteq_nil].
  destruct (_callable_or_trivial_filter ttf_arg) as [ttf|];
    [|by apply list_subseteq_nil].
  done.
Qed.

(** Claim C7. A dataset constructed from a pre-filtered path list [L]
    and one constructed, with the same feature producer, ground-truth flag
    and trajectory tags filter, by tag filtering that yields the same [L]
    have the same [num_scenes] and, for every worker context, the same
    iteration: the same error or the same sequence of examples. The
    construction in pre-filtered mode opens no file and lists no
    directory: all it does is print. *)
Theorem prefiltered_mode_equivalent
    dataset_path fpath dataset_path' fpath' producer to_agent_frame
    stf_arg stf_arg' ttf_arg (L : list string) by_tags prefiltered :
  outcome (__init__ dataset_path fpath producer to_agent_frame
            stf_arg ttf_arg None) = Ok by_tags →
  _scene_file_paths by_tags = L →
  outcome (__init__ dataset_path' fpath' producer to_agent_frame
            stf_arg' ttf_arg (Some L)) = Ok prefiltered →
  num_scenes prefiltered = num_scenes by_tags
  ∧ (∀ get_worker_info,
       __iter__ prefiltered get_worker_info = __iter__ by_tags get_worker_info)
  ∧ (∀ ev,
       ev ∈ emitted (__init__ dataset_path' fpath' producer to_agent_frame
                      stf_arg' ttf_arg (Some L)) →
       ∃ text, ev = EvPrint text).
Proof.
  intros Htags HL Hpre.
  apply init_attributes in Htags as (Hfp1 & Htg1 & Httf1 & _).
  apply init_attributes in Hpre as (Hfp2 & Htg2 & Httf2 & Hpaths).
  specialize (Hpaths L eq_refl).
  assert (_trajectory_tags_filter prefiltered = _trajectory_tags_filter by_tags)
    as Httf by congruence.
  split; [|split].
  - unfold num_scenes. by rewrite Hpaths, HL.
  - intros get_worker_info. apply iter_ignores_scene_tags_filter; congruence.
  - intros ev Hev. apply init_prefiltered_log in Hev.
    apply list_elem_of_singleton in Hev. eauto.
Qed.

End Construction.

(* ===================================================================== *)
(** ** The shipped renderer configuration                                 *)
(* ===================================================================== *)

Lemma pedestrians_ok_other (entity : string) (layers : list string) :
  entity ≠ "pedestrians" →
  constants.pedestrians_ok {[ entity := layers ]}.
Proof.
  intros Hne. unfold constants.pedestrians_ok.
  by rewrite lookup_singleton_ne.
Qed.

Lemma pedestrians_ok_available (layers : list string) :
  Forall (λ layer, layer ∈ constants.pedestrians_available) layers →
  constants.pedestrians_ok {[ "pedestrians" := layers ]}.
Proof.
  intros Hall. unfold constants.pedestrians_ok.
  by rewrite lookup_singleton_eq.
Qed.

(** Claim C9. Every renderers group of [RENDERER_CONFIG] has a time grid
    with [0 <= start <= stop] and [step >= 1], and every layer it names for
    pedestrians is one of the two available for them, occupancy and
    velocity, neither of which is yaw or acceleration. *)
Theorem renderer_config_invariant :
  Forall constants.group_ok
    (constants.renderers_groups constants.RENDERER_CONFIG)
  ∧ ("yaw" ∉ constants.pedestrians_available)
  ∧ ("acceleration" ∉ constants.pedestrians_available).
Proof.
  split; [|split].
  - unfold constants.RENDERER_CONFIG, constants.renderers_groups.
    constructor; [|constructor; [|constructor]].
    + split; [unfold constants.time_grid_ok; cbn; lia|].
      cbn [constants.renderers].
      constructor; [by apply pedestrians_ok_other|].
      constructor; [|constructor].
      apply pedestrians_ok_available. unfold constants.pedestrians_available.
      constructor; [left|]. constructor; [right; left|constructor].
    + split; [unfold constants.time_grid_ok; cbn; lia|].
      cbn [constants.renderers].
      constructor; [by apply pedestrians_ok_other|constructor].
  - unfold constants.pedestrians_available.
    intros Hin. repeat (apply elem_of_cons in Hin as [Hin|Hin]; [done|]).
    by apply elem_of_nil in Hin.
  - unfold constants.pedestrians_available.
    intros Hin. repeat (apply elem_of_cons in Hin as [Hin|Hin]; [done|]).
    by apply elem_of_nil in Hin.
Qed.

(* ===================================================================== *)
(** ** The theorems at concrete inputs                                    *)
(* ===================================================================== *)

Section Examples.
Import Fixture.
#[local] Existing Instance world.

(** Five scene files over two workers: two for the first worker, three
    for the last. *)
Lemma sharding_partition_witness :
  1 ≤ num_scenes (dataset ["a"; "b"; "c"; "d"; "e"])
  ∧ _split_filepaths_by_worker (dataset ["a"; "b"; "c"; "d"; "e"]) 0 2
    = Ok ["a"; "b"]
  ∧ _split_filepaths_by_worker (dataset ["a"; "b"; "c"; "d"; "e"]) 1 2
    = Ok ["c"; "d"; "e"].
Proof.
  assert (1 ≤ num_scenes (dataset ["a"; "b"; "c"; "d"; "e"])) as HN
    by (vm_compute; discriminate).
  assert (1 ≤ 2 ≤ num_scenes (dataset ["a"; "b"; "c"; "d"; "e"])) as HW
    by (vm_compute; split; discriminate).
  destruct (sharding_partition (dataset ["a"; "b"; "c"; "d"; "e"]) 2 HN HW)
    as (Hfull & Hlast & _).
  split; [exact HN|]. split.
  - rewrite (Hfull 0) by lia. reflexivity.
  - exact Hlast.
Defined.

(** Claim C4, at two scene files and three workers: whichever worker asks
    for its shard, [range] is called with a step of zero and its
    [ValueError] escapes; no worker gets a shard, empty or not. *)
Theorem sharding_more_workers_than_scenes :
  _split_filepaths_by_worker (dataset ["s0.pb"; "s1.pb"]) 0 3
  = Raise (ValueError "range() arg 3 must not be zero")
  ∧ _split_filepaths_by_worker (dataset ["s0.pb"; "s1.pb"]) 1 3
    = Raise (ValueError "range() arg 3 must not be zero")
  ∧ _split_filepaths_by_worker (dataset ["s0.pb"; "s1.pb"]) 2 3
    = Raise (ValueError "range() arg 3 must not be zero")
  ∧ is_ok (__iter__ (dataset ["s0.pb"; "s1.pb"])
             (Some {| worker_info.id := 0; worker_info.num_workers := 3 |}))
    = false.
Proof.
  assert (num_scenes (dataset ["s0.pb"; "s1.pb"]) < 3) as Hlt
    by (vm_compute; reflexivity).
  split; [by apply split_degenerate|].
  split; [by apply split_degenerate|].
  split; [by apply split_degenerate|].
  unfold __iter__. by rewrite split_degenerate.
Qed.

(** Two paths and a tag file of two records, of which the first is
    accepted. *)
Lemma tag_filter_selects_witness :
  file_lines (Collaborators:=world) "tags.txt"
  = Some (text_lines ["true"; "false"])
  ∧ parsed_as (H:=world) (text_lines ["true"; "false"]) [true; false]
  ∧ outcome (_filter_paths (H:=world) is_true ["s0.pb"; "s1.pb"] "tags.txt")
    = Ok ["s0.pb"].
Proof.
  assert (parsed_as (H:=world) (text_lines ["true"; "false"]) [true; false])
    as Hparsed
    by (repeat constructor).
  split; [reflexivity|]. split; [exact Hparsed|].
  destruct (tag_filter_selects (H:=world) is_true ["s0.pb"; "s1.pb"]
              "tags.txt" (text_lines ["true"; "false"]) [true; false]
              eq_refl Hparsed eq_refl) as (Hres & _).
  rewrite Hres. reflexivity.
Defined.

(** Claim C3 fails when the tag file is the longer one and an accepted
    record lies beyond the last path: with two paths and the records
    [true], [false], [true], positional truncation would give the first
    path; the code raises [IndexError]. *)
Lemma filter_paths_longer_tag_file_raises :
  outcome (_filter_paths (H:=world) is_true ["s0.pb"; "s1.pb"] "long.txt")
  = Raise IndexError
  ∧ outcome (_filter_paths (H:=world) is_true ["s0.pb"; "s1.pb"] "long.txt")
    ≠ Ok (accepted_paths is_true ["s0.pb"; "s1.pb"] [true; false; true]).
Proof. split; [reflexivity | discriminate]. Qed.

(** A tag file of one record for two paths: the second path is dropped. *)
Lemma filter_paths_length_mismatch_witness :
  file_lines (Collaborators:=world) "short.txt" = Some (text_lines ["true"])
  ∧ parsed_as (H:=world) (text_lines ["true"]) [true]
  ∧ outcome (_filter_paths (H:=world) is_true ["s0.pb"; "s1.pb"] "short.txt")
    = Ok ["s0.pb"].
Proof.
  assert (parsed_as (H:=world) (text_lines ["true"]) [true]) as Hparsed
    by (repeat constructor).
  split; [reflexivity|]. split; [exact Hparsed|].
  destruct (filter_paths_length_mismatch (H:=world) is_true
              ["s0.pb"; "s1.pb"] "short.txt" (text_lines ["true"]) [true]
              eq_refl Hparsed) as (Hshort & _).
  rewrite Hshort; [reflexivity | simpl; lia].
Defined.

(** Claim C6 fails on the kind of the error: a tag file whose second line
    is not JSON makes [_filter_paths] raise the [JSONDecodeError] of
    [json.loads], which is no [MalformedTagRecord] and is the same
    exception when the offending line is the first one. *)
Lemma malformed_record_raises_json_error :
  outcome (_filter_paths (H:=world) _trivial_filter ["s0.pb"; "s1.pb"] "bad2.txt")
  = Raise (JSONDecodeError "Expecting value" "oops" 0)
  ∧ (¬ ∃ lineno,
       outcome (_filter_paths (H:=world) _trivial_filter ["s0.pb"; "s1.pb"] "bad2.txt")
       = Raise (MalformedTagRecord lineno))
  ∧ outcome (_filter_paths (H:=world) _trivial_filter ["s0.pb"; "s1.pb"] "bad1.txt")
    = outcome (_filter_paths (H:=world) _trivial_filter ["s0.pb"; "s1.pb"] "bad2.txt").
Proof.
  split; [reflexivity|]. split; [|reflexivity].
  intros [lineno Hraise]. discriminate Hraise.
Qed.

Lemma malformed_tag_record_witness :
  file_lines (Collaborators:=world) "bad2.txt"
  = Some (text_lines ["true"; "oops"])
  ∧ text_lines ["true"; "oops"] !! 1%nat = Some (line "oops")
  ∧ is_ok (loads_stripped (H:=world) (line "oops")) = false
  ∧ ∃ (j : nat) bad msg pos,
      (j ≤ 1)%nat ∧ text_lines ["true"; "oops"] !! j = Some bad
      ∧ json_loads (Collaborators:=world) (str_strip bad) = inl (msg, pos)
      ∧ _filter_paths (H:=world) _trivial_filter ["s0.pb"; "s1.pb"] "bad2.txt"
        = MkEff [EvOpen "bad2.txt"]
            (Raise (JSONDecodeError msg (str_strip bad) pos)).
Proof.
  split; [reflexivity|]. split; [reflexivity|]. split; [reflexivity|].
  exact (malformed_tag_record (H:=world) _trivial_filter ["s0.pb"; "s1.pb"]
           "bad2.txt" (text_lines ["true"; "oops"]) 1
           (line "oops") eq_refl eq_refl eq_refl).
Defined.

(** Tag filtering that keeps the first of two scene files, against the
    same list handed over pre-filtered. *)
Lemma prefiltered_mode_equivalent_witness :
  outcome (__init__ (H:=world) "data" "tags.txt" producer true
            (PyCallable is_true) PyNone None)
  = Ok (filtered_dataset ["s0.pb"])
  ∧ outcome (__init__ (H:=world) "" "" producer true PyNone PyNone (Some ["s0.pb"]))
    = Ok (dataset ["s0.pb"])
  ∧ num_scenes (dataset ["s0.pb"]) = num_scenes (filtered_dataset ["s0.pb"])
  ∧ __iter__ (dataset ["s0.pb"]) None
    = __iter__ (filtered_dataset ["s0.pb"]) None.
Proof.
  split; [reflexivity|]. split; [reflexivity|].
  destruct (prefiltered_mode_equivalent (H:=world)
              "data" "tags.txt" "" "" producer true
              (PyCallable is_true) PyNone PyNone ["s0.pb"]
              (filtered_dataset ["s0.pb"]) (dataset ["s0.pb"])
              eq_refl eq_refl eq_refl) as (Hnum & Hiter & _).
  split; [exact Hnum | exact (Hiter None)].
Defined.

(** The scene of three requests of which the second names a track with
    no state at the prediction time, and for which the helpers raise. *)
Lemma iteration_skips_invalid_witness :
  decode (Collaborators:=world) "s0.pb" = Ok scene0
  ∧ request_is_valid (Collaborators:=world) scene0 (absent 2) = false
  ∧ is_ok (make_result (dataset ["s0.pb"]) scene0 (absent 2)) = false
  ∧ __iter__ (dataset ["s0.pb"]) None
    = Ok (MkEff
            [ {[ "ground_truth_trajectory" := [(1, 0); (3, 0)];
                 "feature_maps" := [(0, 0)] ]};
              {[ "ground_truth_trajectory" := [(1, 0); (5, 0)];
                 "feature_maps" := [(0, 0)] ]} ]
            (Ok tt)).
Proof.
  split; [reflexivity|]. split; [reflexivity|]. split; [reflexivity|].
  destruct (iteration_skips_invalid (H:=world) (dataset ["s0.pb"]))
    as (_ & _ & Hthree).
  apply (Hthree "s0.pb" scene0 (moving 1) (absent 2) (moving 3));
    try reflexivity; split; reflexivity.
Defined.

(** A producer that emits ['ground_truth_trajectory'] itself: its value
    is the one in the example. *)
Lemma producer_key_collision_witness :
  produce_features colliding_producer scene0 (1, 0)
  = Ok {[ "feature_maps" := [(0, 0)];
          "ground_truth_trajectory" := [(7, 7)] ]}
  ∧ ∃ example,
      make_result (colliding_dataset ["s0.pb"]) scene0 (moving 1) = Ok example
      ∧ example !! "ground_truth_trajectory" = Some [(7, 7)].
Proof.
  split; [reflexivity|].
  destruct (producer_key_collision (H:=world) (colliding_dataset ["s0.pb"]))
    as (_ & Hmerge).
  destruct (Hmerge scene0 (moving 1) 1 (1, 0) [(2, 0); (4, 0)] [(1, 0); (3, 0)]
              {[ "feature_maps" := [(0, 0)];
                 "ground_truth_trajectory" := [(7, 7)] ]}
              eq_refl eq_refl eq_refl eq_refl eq_refl)
    as (example & Hmake & Hkeys & _).
  exists example. split; [exact Hmake|]. apply Hkeys. reflexivity.
Defined.

End Examples.

(* ===================================================================== *)
(** ** Further properties: sequencing of generators                       *)
(* ===================================================================== *)

Section EffLaws.
Context {E : Type}.

Lemma bind_assoc {A B C} (m : Eff E A) (f : A → Eff E B) (g : B → Eff E C) :
  (m ≫= f) ≫= g = m ≫= (λ a, f a ≫= g).
Proof.
  destruct m as [xs [a|e]]; [|done].
  unfold mbind, Eff_bind. simpl.
  destruct (f a) as [ys [b|e]]; simpl; [|done].
  by rewrite app_assoc.
Qed.

Lemma bind_lift_ok {A B} (a : A) (f : A → Eff E B) : lift (Ok a) ≫= f = f a.
Proof. unfold mbind, Eff_bind. simpl. by destruct (f a). Qed.

Lemma bind_raised {A B} (m : Eff E A) (f : A → Eff E B) e :
  outcome m = Raise e → m ≫= f = MkEff (emitted m) (Raise e).
Proof. intros Hm. unfold mbind, Eff_bind. by rewrite Hm. Qed.

Lemma then_done (m : Eff E unit) : m ≫= (λ _, lift (Ok tt)) = m.
Proof.
  destruct m as [xs [[]|e]]; [|done].
  unfold mbind, Eff_bind. simpl. by rewrite app_nil_r.
Qed.

Lemma for_each_app {A} (l1 l2 : list A) (body : A → Eff E unit) :
  for_each (l1 ++ l2) body = for_each l1 body ≫= λ _, for_each l2 body.
Proof.
  induction l1 as [|x l1 IH]; simpl.
  - exact (eq_sym (bind_lift_ok tt (λ _, for_each l2 body))).
  - by rewrite IH, bind_assoc.
Qed.

Lemma for_yielded_then {X} (g1 g2 : Eff X unit) (body : X → Eff E unit) :
  for_yielded (g1 ≫= λ _, g2) body
  = for_yielded g1 body ≫= λ _, for_yielded g2 body.
Proof.
  unfold for_yielded. destruct g1 as [l1 [[]|e]].
  - rewrite bind_returned. cbn [emitted outcome lift].
    rewrite for_each_app, bind_assoc.
    rewrite (then_done (for_each l1 body)). reflexivity.
  - change (MkEff l1 (Raise e) ≫= λ _, g2)
      with (MkEff (E:=X) (A:=unit) l1 (Raise e)).
    cbn [emitted outcome]. rewrite bind_assoc. reflexivity.
Qed.

(** A loop that ends normally: every round ended normally, and what was
    emitted is what the rounds emitted, one after the other. *)
Lemma for_each_returned {A} (l : list A) (body : A → Eff E unit) :
  outcome (for_each l body) = Ok tt →
  Forall (λ x, outcome (body x) = Ok tt) l
  ∧ emitted (for_each l body) = concat ((λ x, emitted (body x)) <$> l).
Proof.
  induction l as [|x l IH]; simpl; [done|].
  unfold mbind, Eff_bind. destruct (outcome (body x)) as [[]|e] eqn:Hx; [|done].
  simpl. intros Hl. destruct (IH Hl) as [Hall Hem].
  split; [by constructor|]. by rewrite Hem.
Qed.

End EffLaws.

(* ===================================================================== *)
(** ** Further properties: sharding                                       *)
(* ===================================================================== *)

Section ShardingFacts.
Context `{Collaborators}.
Implicit Types (self : MotionPredictionDataset) (w W : Z).

(** The index ranges of workers [0 .. W-1] tile the list. *)
Lemma shards_concat {A} (l : list A) W :
  1 ≤ W → W ≤ Z.of_nat (length l) →
  concat ((λ w, index_range l (w * (Z.of_nat (length l) `div` W))
                  (if w =? W - 1 then Z.of_nat (length l)
                   else (w + 1) * (Z.of_nat (length l) `div` W)))
            <$> seqZ 0 W)
  = l.
Proof.
  intros HW HN.
  set (N := Z.of_nat (length l)) in *. set (chunk := N `div` W).
  assert (1 ≤ chunk) as Hc by (apply Z.div_le_lower_bound; lia).
  assert (W * chunk ≤ N) as Hmul by (apply Z.mul_div_le; lia).
  clearbody chunk.
  assert (seqZ 0 W = seqZ 0 (Z.of_nat (Z.to_nat (W - 1))) ++ [W - 1]) as ->.
  { rewrite <- (Z2Nat.id W) at 1 by lia.
    replace (Z.to_nat W) with (S (Z.to_nat (W - 1))) by lia.
    rewrite seqZ_S. do 2 f_equal. lia. }
  rewrite fmap_app, concat_app. simpl. rewrite app_nil_r.
  unfold seqZ at 1. rewrite Nat2Z.id, <- list_fmap_compose.
  rewrite (list_fmap_ext _
    (λ i : nat, take (Z.to_nat chunk) (drop (i * Z.to_nat chunk) l))).
  2:{ intros i k [Hk Hi]%lookup_seq. simpl in Hk. subst i. simpl.
      destruct (Z.eqb_spec (Z.of_nat k + 0) (W - 1)); [lia|].
      rewrite index_range_take_drop by nia. f_equal; [f_equal; lia|].
      f_equal. nia. }
  rewrite concat_chunks.
  rewrite Z.eqb_refl, index_range_take_drop by nia.
  rewrite (take_ge (drop _ _)) by (rewrite length_drop; unfold N; nia).
  replace (Z.to_nat ((W - 1) * chunk))
    with (Z.to_nat (W - 1) * Z.to_nat chunk)%nat by nia.
  apply take_drop.
Qed.

Lemma index_range_all {A} (l : list A) :
  index_range l 0 (Z.of_nat (length l)) = l.
Proof.
  rewrite index_range_take_drop by lia.
  rewrite Z.sub_0_r, Nat2Z.id. change (Z.to_nat 0) with 0%nat.
  rewrite drop_0. by apply take_ge.
Qed.

(** Property X1.
    The last worker takes the remainder of the division on top of its
    chunk: its shard has [N // W + N % W] elements, which is at least the
    size of the other shards and exceeds it by less than [W]. *)
Theorem last_shard_absorbs_remainder self W shard :
  1 ≤ W ≤ num_scenes self →
  _split_filepaths_by_worker self (W - 1) W = Ok shard →
  Z.of_nat (length shard)
  = num_scenes self `div` W + num_scenes self `mod` W
  ∧ num_scenes self `div` W ≤ Z.of_nat (length shard)
    < num_scenes self `div` W + W.
Proof.
  intros [HW HN]. rewrite split_index_range, Z.eqb_refl by lia.
  intros [= <-].
  pose proof (Z.div_mod (num_scenes self) W ltac:(lia)) as Hdm.
  pose proof (Z.mod_pos_bound (num_scenes self) W ltac:(lia)) as Hmod.
  assert (1 ≤ num_scenes self `div` W) as Hc
    by (apply Z.div_le_lower_bound; lia).
  generalize dependent (num_scenes self `mod` W). intros r Hdm Hr.
  generalize dependent (num_scenes self `div` W). intros chunk Hdm Hc.
  rewrite index_range_take_drop, length_take, length_drop by nia.
  unfold num_scenes in *. nia.
Qed.

(** Property X2.
    A single worker over a dataset that has scenes iterates as the
    dataset does outside any worker; over a dataset without scenes the
    same call raises, where iteration outside any worker just yields
    nothing. *)
Theorem single_worker_iteration self :
  (1 ≤ num_scenes self →
   __iter__ self (Some {| worker_info.id := 0; worker_info.num_workers := 1 |})
   = __iter__ self None)
  ∧ (num_scenes self = 0 →
     __iter__ self (Some {| worker_info.id := 0; worker_info.num_workers := 1 |})
     = Raise (ValueError "range() arg 3 must not be zero")
     ∧ __iter__ self None = Ok (MkEff [] (Ok tt))).
Proof.
  split.
  - intros HN. unfold __iter__. cbn [worker_info.id worker_info.num_workers].
    rewrite split_index_range by lia.
    change (0 =? 1 - 1) with true. cbn iota. rewrite Z.mul_0_l.
    unfold num_scenes at 1. by rewrite index_range_all.
  - intros HN. unfold __iter__. cbn [worker_info.id worker_info.num_workers].
    rewrite split_degenerate by lia. split; [done|].
    unfold num_scenes in HN.
    destruct (_scene_file_paths self) as [|p ps]; [done|simpl in HN; lia].
Qed.

(** Property X3.
    The ways sharding fails on the worker count: with more workers than
    scenes every worker's iteration raises the [ValueError] of a [range]
    with step zero, whatever its id, and with no worker at all the
    division raises. *)
Theorem sharding_failure_modes self w W :
  (num_scenes self < W →
   __iter__ self (Some {| worker_info.id := w; worker_info.num_workers := W |})
   = Raise (ValueError "range() arg 3 must not be zero"))
  ∧ (W = 0 →
     __iter__ self (Some {| worker_info.id := w; worker_info.num_workers := W |})
     = Raise ZeroDivisionError).
Proof.
  unfold __iter__. cbn [worker_info.id worker_info.num_workers]. split.
  - intros HW. by rewrite split_degenerate.
  - intros ->. reflexivity.
Qed.

(** Property X4.
    With at most as many workers as scenes no worker is idle: every
    worker gets a shard, of at least [N // W >= 1] scene files. *)
Theorem no_worker_is_idle self w W :
  1 ≤ W ≤ num_scenes self → 0 ≤ w < W →
  ∃ shard,
    _split_filepaths_by_worker self w W = Ok shard
    ∧ 1 ≤ num_scenes self `div` W ≤ Z.of_nat (length shard).
Proof.
  intros [HW HN] Hw. rewrite split_index_range by lia. eexists.
  split; [done|].
  assert (1 ≤ num_scenes self `div` W) as Hc
    by (apply Z.div_le_lower_bound; lia).
  assert (W * (num_scenes self `div` W) ≤ num_scenes self) as Hmul
    by (apply Z.mul_div_le; lia).
  generalize dependent (num_scenes self `div` W). intros chunk Hc Hmul.
  split; [done|].
  rewrite index_range_take_drop, length_take, length_drop by nia.
  unfold num_scenes in *. destruct (Z.eqb_spec w (W - 1)); nia.
Qed.

End ShardingFacts.

(* ===================================================================== *)
(** ** Further properties: iteration                                      *)
(* ===================================================================== *)

Section IterationFacts.
Context `{Collaborators}.
Implicit Types (self : MotionPredictionDataset) (scene : Scene)
  (request : Request) (file_paths : list string).

Lemma data_gen_then self (paths1 paths2 : list string) :
  data_gen self (paths1 ++ paths2)
  = data_gen self paths1 ≫= λ _, data_gen self paths2.
Proof.
  unfold data_gen, scenes_generator.
  by rewrite for_each_app, for_yielded_then.
Qed.

Lemma data_gen_concat self (shards : list (list string)) :
  data_gen self (concat shards)
  = for_each shards (λ shard, data_gen self shard).
Proof.
  induction shards as [|shard shards IH]; [done|].
  simpl. by rewrite data_gen_then, IH.
Qed.

(** One scene file whose scene is known. *)
Lemma data_gen_one self path scene :
  decode path = Ok scene →
  data_gen self [path]
  = for_each (prediction_requests scene) (λ request,
      request_body self scene request).
Proof.
  intros Hdecode. unfold data_gen, for_yielded.
  rewrite (scenes_generator_decoded [path] [scene])
    by (by repeat constructor).
  cbn [emitted outcome for_each].
  etrans; [apply then_done|]. apply (then_done (for_each _ _)).
Qed.

(** What [make_result] returns has the ground-truth key. *)
Lemma make_result_has_ground_truth self scene request example :
  make_result self scene request = Ok example →
  is_Some (example !! "ground_truth_trajectory").
Proof.
  unfold make_result.
  destruct (get_track_for_transform _ _) as [track|]; [simpl|done].
  destruct (get_to_track_frame_transform _) as [tf|]; [simpl|done].
  destruct (get_gt_trajectory _ _) as [trajectory|]; [simpl|done].
  destruct (if _transform_ground_truth_to_agent_frame self
            then transform2dpoints trajectory tf else Ok trajectory)
    as [ground_truth|]; [simpl|done].
  destruct (produce_features _ _ _) as [features|]; [simpl|done].
  intros [= <-]. unfold dict_update. apply lookup_union_is_Some. right.
  by rewrite lookup_singleton_eq.
Qed.

(** Property X5.
    Iterating over two path lists in a row is iterating over the first
    and then over the second; when the first iteration ends with an
    exception, that is the end: nothing of the second list is read. *)
Theorem iteration_over_concatenation self (paths1 paths2 : list string) :
  data_gen self (paths1 ++ paths2)
  = (data_gen self paths1 ≫= λ _, data_gen self paths2)
  ∧ (∀ e, outcome (data_gen self paths1) = Raise e →
       data_gen self (paths1 ++ paths2) = data_gen self paths1).
Proof.
  split; [apply data_gen_then|].
  intros e He. rewrite data_gen_then, (bind_raised _ _ e He).
  destruct (data_gen self paths1) as [xs o]. simpl in *. by subst.
Qed.

(** Property X6.
    With at most as many workers as scenes, if iteration outside any
    worker runs to its end, so does the iteration of every worker, and the
    examples of workers [0 .. W-1], put end to end in this order, are the
    examples of the iteration outside any worker: none is missing and none
    comes twice. *)
Theorem workers_cover_single_process self W :
  1 ≤ W ≤ num_scenes self →
  outcome (data_gen self (_scene_file_paths self)) = Ok tt →
  ∃ generators,
    comprehension
      (λ w, __iter__ self
              (Some {| worker_info.id := w; worker_info.num_workers := W |}))
      (seqZ 0 W)
    = Ok generators
    ∧ Forall (λ g, outcome g = Ok tt) generators
    ∧ concat (emitted <$> generators)
      = emitted (data_gen self (_scene_file_paths self)).
Proof.
  intros [HW HN] Hend.
  set (shard_of := λ w,
    index_range (_scene_file_paths self) (w * (num_scenes self `div` W))
      (if w =? W - 1 then num_scenes self
       else (w + 1) * (num_scenes self `div` W))).
  exists ((λ w, data_gen self (shard_of w)) <$> seqZ 0 W).
  assert (concat (shard_of <$> seqZ 0 W) = _scene_file_paths self) as Hcat
    by (by apply shards_concat).
  rewrite <- Hcat, data_gen_concat in Hend.
  apply for_each_returned in Hend as [Hall Hemitted].
  split; [|split].
  - apply comprehension_fmap. intros w [Hw0 HwW]%elem_of_seqZ.
    unfold __iter__. cbn [worker_info.id worker_info.num_workers].
    by rewrite split_index_range by lia.
  - apply Forall_fmap. apply Forall_fmap in Hall. exact Hall.
  - rewrite <- Hcat. rewrite data_gen_concat, Hemitted.
    by rewrite <- !list_fmap_compose.
Qed.

(** Property X7.
    No exception of a helper is caught: when building the example of an
    eligible request raises, the iteration ends with that exception, after
    the examples of the eligible requests before it; the requests and the
    scene files after it are not looked at. *)
Theorem helper_exception_ends_iteration self
    (paths1 paths2 : list string) (scenes1 : list Scene) path scene
    (before after : list Request) request e examples :
  decoded_as paths1 scenes1 →
  decode path = Ok scene →
  prediction_requests scene = before ++ request :: after →
  eligible self scene request →
  make_result self scene request = Raise e →
  examples_of self
    (eligible_requests self scenes1
     ++ ((λ r, (scene, r)) <$> filter (eligible self scene) before))
    examples →
  data_gen self (paths1 ++ path :: paths2) = MkEff examples (Raise e).
Proof.
  intros Hdecoded Hdecode Hrequests [Hvalid Htags] Hmake
    (ex1 & ex2 & Hex1 & Hex2 & ->)%Forall2_app_inv_l.
  change (path :: paths2) with ([path] ++ paths2).
  rewrite !data_gen_then, (data_gen_examples _ _ _ _ Hdecoded Hex1).
  rewrite (data_gen_one _ _ _ Hdecode), Hrequests, for_each_app.
  rewrite (requests_examples _ _ _ _ Hex2). cbn [for_each].
  assert (request_body self scene request = MkEff [] (Raise e)) as ->.
  { unfold request_body. by rewrite Hvalid, Htags, Hmake. }
  unfold mbind, Eff_bind. simpl. by rewrite app_nil_r.
Qed.

(** Property X8.
    Every example that is yielded has the key
    ['ground_truth_trajectory']. *)
Theorem yielded_example_has_ground_truth self file_paths example :
  example ∈ emitted (data_gen self file_paths) →
  is_Some (example !! "ground_truth_trajectory").
Proof.
  intros (scene & request & Hmake)%data_gen_emitted.
  by eapply make_result_has_ground_truth.
Qed.

End IterationFacts.

(* ===================================================================== *)
(** ** Further properties: tag filtering and construction                 *)
(* ===================================================================== *)

Section FilterFacts.
Context `{Collaborators}.
Implicit Types (accept : JSON → bool) (file_paths : list string)
  (lines : list string) (records : list JSON).

Lemma valid_indices_count accept records i :
  length (filter (λ p : Z * JSON, accept p.2 = true)
            (enumerate_from i records)).*1
  = length (filter (λ tags, accept tags = true) records).
Proof.
  rewrite length_fmap. revert i.
  induction records as [|tags records IH]; intros i; [done|].
  simpl. rewrite !filter_cons. simpl.
  case_decide; simpl; by rewrite IH.
Qed.

(** The loop over the tag file comes to its end only if every line
    parses. *)
Lemma collect_valid_indices_returned accept lines i acc valid_indices :
  collect_valid_indices accept (enumerate_from i lines) acc = Ok valid_indices →
  ∃ records, parsed_as lines records.
Proof.
  revert i acc. induction lines as [|line lines IH]; intros i acc.
  - intros _. exists []. constructor.
  - simpl. unfold loads_stripped at 1.
    destruct (json_loads (str_strip line)) as [[msg pos]|tags] eqn:Hline;
      [done|]. simpl.
    destruct (accept tags); intros [records Hrecords]%IH;
      exists (tags :: records); by constructor.
Qed.

Lemma filter_paths_returned accept file_paths fpath result :
  outcome (_filter_paths accept file_paths fpath) = Ok result →
  ∃ lines records,
    file_lines fpath = Some lines ∧ parsed_as lines records
    ∧ result = accepted_paths accept file_paths records
    ∧ existsb accept (drop (length file_paths) records) = false.
Proof.
  intros Hres.
  destruct (file_lines fpath) as [lines|] eqn:Hopen.
  2:{ unfold _filter_paths, open_lines in Hres. by rewrite Hopen in Hres. }
  destruct (collect_valid_indices accept (enumerate lines) [])
    as [valid_indices|e] eqn:Hloop.
  2:{ unfold _filter_paths, open_lines in Hres. rewrite Hopen in Hres.
      simpl in Hres. by rewrite Hloop in Hres. }
  apply collect_valid_indices_returned in Hloop as [records Hparsed].
  exists lines, records.
  rewrite (filter_paths_parsed _ _ _ lines records) in Hres by done.
  destruct (existsb accept _); [done|]. injection Hres as <-. done.
Qed.

Lemma accepted_paths_stricter {T} (accept1 accept2 : T → bool)
    file_paths (records : list T) :
  (∀ t, accept1 t = true → accept2 t = true) →
  sublist (accepted_paths accept1 file_paths records)
    (accepted_paths accept2 file_paths records).
Proof.
  intros Himp. revert records.
  induction file_paths as [|p ps IH]; intros [|t ts];
    unfold accepted_paths; simpl; try apply sublist_nil_l.
  rewrite !filter_cons. simpl.
  destruct (accept1 t) eqn:H1.
  - rewrite (Himp t H1), !decide_True by done. simpl.
    apply sublist_skip, IH.
  - rewrite decide_False by done.
    case_decide; simpl; [apply sublist_cons|]; apply IH.
Qed.

Lemma existsb_stricter {T} (accept1 accept2 : T → bool) (l : list T) :
  (∀ t, accept1 t = true → accept2 t = true) →
  existsb accept2 l = false → existsb accept1 l = false.
Proof.
  intros Himp. induction l as [|t l IH]; simpl; [done|].
  intros [H2 Hl]%orb_false_elim. rewrite (IH Hl), orb_false_r.
  destruct (accept1 t) eqn:H1; [|done]. by rewrite (Himp t H1) in H2.
Qed.

(** Property X9.
    Whenever [_filter_paths] returns, what it returns is a sublist of the
    path list it was given: some of its paths, in their order, none of
    them twice over. *)
Theorem filter_paths_returns_sublist accept file_paths fpath result :
  outcome (_filter_paths accept file_paths fpath) = Ok result →
  sublist result file_paths ∧ (length result ≤ length file_paths)%nat.
Proof.
  intros (lines & records & _ & _ & -> & _)%filter_paths_returned.
  split; [apply accepted_paths_sublist|].
  apply sublist_length, accepted_paths_sublist.
Qed.

(** Property X10.
    A stricter predicate cannot make filtering fail and can only remove
    paths: if filtering returns with a predicate, it returns with every
    predicate that accepts no more, and returns a sublist. *)
Theorem stricter_filter_keeps_fewer accept1 accept2 file_paths fpath result2 :
  (∀ tags, accept1 tags = true → accept2 tags = true) →
  outcome (_filter_paths accept2 file_paths fpath) = Ok result2 →
  ∃ result1,
    outcome (_filter_paths accept1 file_paths fpath) = Ok result1
    ∧ sublist result1 result2.
Proof.
  intros Himp (lines & records & Hopen & Hparsed & -> & Hin)
    %filter_paths_returned.
  exists (accepted_paths accept1 file_paths records). split.
  - rewrite (filter_paths_parsed _ _ _ lines records) by done.
    by rewrite (existsb_stricter accept1 accept2).
  - by apply accepted_paths_stricter.
Qed.

Lemma filter_paths_emitted accept file_paths fpath lines records :
  file_lines fpath = Some lines →
  parsed_as lines records →
  emitted (_filter_paths accept file_paths fpath)
  = [EvOpen fpath;
     EvPrint (pretty (length (filter (λ tags, accept tags = true) records))
              +:+ "/" +:+ pretty (length file_paths)
              +:+ " scenes fit the filter criteria.")].
Proof.
  intros Hopen Hparsed. unfold _filter_paths, open_lines, enumerate.
  rewrite Hopen.
  change (emit (EvOpen fpath) ≫= λ _, mret lines)
    with (MkEff [EvOpen fpath] (Ok lines)).
  rewrite bind_returned.
  rewrite (collect_valid_indices_parsed _ _ records) by done.
  rewrite bind_lift_ok. cbn [app].
  rewrite valid_indices_count. unfold print, emit.
  rewrite bind_returned. cbn [emitted lift app]. done.
Qed.

(** Property X11.
    What [_filter_paths] does on a tag file whose lines all parse: it
    opens the file and prints one report, the number of accepted records
    of the whole tag file over the number of paths, and only then looks
    the paths up, so the report is printed whether the call returns or
    raises [IndexError], the only exception it can then raise. *)
Theorem filter_paths_report accept file_paths fpath lines records :
  file_lines fpath = Some lines →
  parsed_as lines records →
  emitted (_filter_paths accept file_paths fpath)
  = [EvOpen fpath;
     EvPrint (pretty (length (filter (λ tags, accept tags = true) records))
              +:+ "/" +:+ pretty (length file_paths)
              +:+ " scenes fit the filter criteria.")]
  ∧ (outcome (_filter_paths accept file_paths fpath)
     = Ok (accepted_paths accept file_paths records)
     ∨ outcome (_filter_paths accept file_paths fpath) = Raise IndexError).
Proof.
  intros Hopen Hparsed. split; [by eapply filter_paths_emitted|].
  rewrite (filter_paths_parsed _ _ _ lines records) by done.
  destruct (existsb accept _); [by right | by left].
Qed.

(** Property X12.
    An argument for a filter that is neither [None] nor callable makes the
    constructor raise [ValueError] before it does anything else: no
    directory is listed, no file opened, nothing printed, in either mode.
    The scene tags filter is checked first. *)
Theorem constructor_rejects_non_callable
    dataset_path fpath producer to_agent_frame stf_arg ttf_arg pre_filtered
    type_name :
  (stf_arg = PyObject type_name →
   __init__ dataset_path fpath producer to_agent_frame
     stf_arg ttf_arg pre_filtered
   = MkEff [] (Raise (ValueError ("Expected callable, got " +:+ type_name))))
  ∧ (is_ok (_callable_or_trivial_filter stf_arg) = true →
     ttf_arg = PyObject type_name →
     __init__ dataset_path fpath producer to_agent_frame
       stf_arg ttf_arg pre_filtered
     = MkEff [] (Raise (ValueError ("Expected callable, got " +:+ type_name)))).
Proof.
  split.
  - intros ->. reflexivity.
  - intros Hstf ->. unfold __init__.
    destruct (_callable_or_trivial_filter stf_arg) as [stf|]; [|done].
    reflexivity.
Qed.

(** Property X13.
    The method [_callable_or_lambda_true] does what the function
    [_callable_or_trivial_filter] does: the same predicate for a callable,
    the same error for another object, and for [None] a predicate that is
    true of everything. *)
Theorem callable_or_lambda_true_agrees {A} self (f : optional_callable A) :
  _callable_or_lambda_true self f = _callable_or_trivial_filter f
  ∧ (f = PyNone →
     ∃ predicate : A → bool,
       _callable_or_lambda_true self f = Ok predicate
       ∧ ∀ x, predicate x = true).
Proof.
  split; [by destruct f|].
  intros ->. exists (λ _, true). done.
Qed.

End FilterFacts.

Section ConstructionFacts.
Context `{Collaborators}.
Implicit Types (self : MotionPredictionDataset) (w W : Z).

Lemma accepted_paths_count {T} (accept : T → bool)
    (file_paths : list string) (records : list T) :
  existsb accept (drop (length file_paths) records) = false →
  length (accepted_paths accept file_paths records)
  = length (filter (λ t, accept t = true) records).
Proof.
  unfold accepted_paths. rewrite length_fmap. revert records.
  induction file_paths as [|p ps IH]; intros records; simpl.
  - rewrite drop_0. intros Hnone.
    induction records as [|t ts IHts]; [done|].
    simpl in Hnone. apply orb_false_elim in Hnone as [Ht Hts].
    rewrite filter_cons, decide_False by congruence. by apply IHts.
  - destruct records as [|t ts]; [done|]. simpl. intros Hnone.
    rewrite !filter_cons. simpl. case_decide; simpl; by rewrite IH.
Qed.

(** Property X14.
    Whenever construction by tag filtering succeeds, it has listed the
    dataset directory, then opened the tag file, then printed one report,
    and the count in the report is the [num_scenes] of the dataset. *)
Theorem construction_report_matches_num_scenes
    dataset_path fpath producer to_agent_frame stf_arg ttf_arg self :
  outcome (__init__ dataset_path fpath producer to_agent_frame
             stf_arg ttf_arg None) = Ok self →
  emitted (__init__ dataset_path fpath producer to_agent_frame
             stf_arg ttf_arg None)
  = [EvListDir dataset_path;
     EvOpen fpath;
     EvPrint (pretty (length (_scene_file_paths self))
              +:+ "/" +:+ pretty (length (get_file_paths dataset_path))
              +:+ " scenes fit the filter criteria.")].
Proof.
  unfold __init__.
  destruct (_callable_or_trivial_filter stf_arg) as [stf|]; [|done].
  destruct (_callable_or_trivial_filter ttf_arg) as [ttf|]; [|done].
  rewrite !bind_lift_ok.
  destruct (outcome (_filter_paths stf (get_file_paths dataset_path) fpath))
    as [paths|e] eqn:Hfilter.
  2:{ unfold mbind, Eff_bind. simpl. by rewrite Hfilter. }
  pose proof Hfilter as (lines & records & Hopen & Hparsed & -> & Hin)
    %filter_paths_returned.
  pose proof (filter_paths_emitted stf (get_file_paths dataset_path) fpath
                lines records Hopen Hparsed) as Hreport.
  unfold mbind, Eff_bind. simpl. rewrite Hfilter. simpl.
  intros [= <-]. simpl. rewrite Hreport, app_nil_r.
  by rewrite accepted_paths_count.
Qed.

(** Property X15.
    A dataset constructed without a trajectory tags filter produces an
    example for every request that the validator accepts. *)
Theorem default_trajectory_filter_accepts_all
    dataset_path fpath producer to_agent_frame stf_arg pre_filtered self :
  outcome (__init__ dataset_path fpath producer to_agent_frame
             stf_arg PyNone pre_filtered) = Ok self →
  ∀ scene request,
    eligible self scene request ↔ request_is_valid scene request = true.
Proof.
  intros (_ & _ & Httf & _)%init_attributes scene request.
  injection Httf as Httf. unfold eligible. rewrite <- Httf.
  unfold _trivial_filter. split; [by intros [Hvalid _]|done].
Qed.

(** Property X16.
    The paths of a dataset constructed by tag filtering are some of the
    files listed for the dataset directory, in the order of the listing:
    [num_scenes] is at most the number of files. *)
Theorem constructed_paths_are_listed_files
    dataset_path fpath producer to_agent_frame stf_arg ttf_arg self :
  outcome (__init__ dataset_path fpath producer to_agent_frame
             stf_arg ttf_arg None) = Ok self →
  sublist (_scene_file_paths self) (get_file_paths dataset_path)
  ∧ num_scenes self ≤ Z.of_nat (length (get_file_paths dataset_path)).
Proof.
  unfold __init__.
  destruct (_callable_or_trivial_filter stf_arg) as [stf|]; [|done].
  destruct (_callable_or_trivial_filter ttf_arg) as [ttf|]; [|done].
  rewrite !bind_lift_ok.
  destruct (outcome (_filter_paths stf (get_file_paths dataset_path) fpath))
    as [paths|e] eqn:Hfilter.
  2:{ unfold mbind, Eff_bind. simpl. by rewrite Hfilter. }
  pose proof Hfilter as (lines & records & _ & _ & -> & _)
    %filter_paths_returned.
  unfold mbind, Eff_bind. simpl. rewrite Hfilter. simpl.
  intros [= <-]. unfold num_scenes. simpl.
  split; [apply accepted_paths_sublist|].
  apply inj_le, sublist_length, accepted_paths_sublist.
Qed.

End ConstructionFacts.

(** Property X17.
    The three tables keyed by split name have the same keys, the three
    split names, so a split found in one is found in all; and the nine
    paths are pairwise different. *)
Theorem split_tables_agree :
  dom constants.SPLIT_TO_PB_DATASET_PATH = {[ "train"; "validation"; "test" ]}
  ∧ dom constants.SPLIT_TO_RENDERED_DATASET_PATH
    = dom constants.SPLIT_TO_PB_DATASET_PATH
  ∧ dom constants.SPLIT_TO_SCENE_TAGS_PATH
    = dom constants.SPLIT_TO_PB_DATASET_PATH
  ∧ NoDup ((map_to_list constants.SPLIT_TO_PB_DATASET_PATH).*2
           ++ (map_to_list constants.SPLIT_TO_RENDERED_DATASET_PATH).*2
           ++ (map_to_list constants.SPLIT_TO_SCENE_TAGS_PATH).*2).
Proof.
  unfold constants.SPLIT_TO_PB_DATASET_PATH,
    constants.SPLIT_TO_RENDERED_DATASET_PATH,
    constants.SPLIT_TO_SCENE_TAGS_PATH.
  split; [|split; [|split]].
  - rewrite !dom_insert_L, dom_singleton_L. set_solver.
  - by rewrite !dom_insert_L, !dom_singleton_L.
  - by rewrite !dom_insert_L, !dom_singleton_L.
  - apply (bool_decide_unpack _). vm_compute. exact I.
Qed.

(* ===================================================================== *)
(** ** The further properties at concrete inputs                          *)
(* ===================================================================== *)

Section MoreExamples.
Import Fixture.
#[local] Existing Instance world.

(** Five scene files over two workers: the last worker has 2 + 1. *)
Lemma last_shard_absorbs_remainder_witness :
  1 ≤ 2 ≤ num_scenes (dataset ["a"; "b"; "c"; "d"; "e"])
  ∧ _split_filepaths_by_worker (dataset ["a"; "b"; "c"; "d"; "e"]) (2 - 1) 2
    = Ok ["c"; "d"; "e"]
  ∧ Z.of_nat (length ["c"; "d"; "e"])
    = num_scenes (dataset ["a"; "b"; "c"; "d"; "e"]) `div` 2
      + num_scenes (dataset ["a"; "b"; "c"; "d"; "e"]) `mod` 2.
Proof.
  assert (1 ≤ 2 ≤ num_scenes (dataset ["a"; "b"; "c"; "d"; "e"])) as HW
    by (vm_compute; split; discriminate).
  split; [exact HW|]. split; [reflexivity|].
  exact (proj1 (last_shard_absorbs_remainder
                  (dataset ["a"; "b"; "c"; "d"; "e"]) 2 ["c"; "d"; "e"]
                  HW eq_refl)).
Defined.

Lemma single_worker_iteration_witness :
  1 ≤ num_scenes (dataset ["s0.pb"])
  ∧ __iter__ (dataset ["s0.pb"])
      (Some {| worker_info.id := 0; worker_info.num_workers := 1 |})
    = __iter__ (dataset ["s0.pb"]) None
  ∧ num_scenes (dataset []) = 0
  ∧ __iter__ (dataset [])
      (Some {| worker_info.id := 0; worker_info.num_workers := 1 |})
    = Raise (ValueError "range() arg 3 must not be zero").
Proof.
  assert (1 ≤ num_scenes (dataset ["s0.pb"])) as HN
    by (vm_compute; discriminate).
  split; [exact HN|].
  split; [exact (proj1 (single_worker_iteration (dataset ["s0.pb"])) HN)|].
  split; [reflexivity|].
  exact (proj1 (proj2 (single_worker_iteration (dataset [])) eq_refl)).
Defined.

(** The producer fails on the third request of the first scene file: the
    second scene file makes no difference. *)
Lemma iteration_over_concatenation_witness :
  outcome (data_gen (failing_dataset ["s0.pb"; "s1.pb"]) ["s0.pb"])
  = Raise (RuntimeError "render failed")
  ∧ data_gen (failing_dataset ["s0.pb"; "s1.pb"]) (["s0.pb"] ++ ["s1.pb"])
    = data_gen (failing_dataset ["s0.pb"; "s1.pb"]) ["s0.pb"].
Proof.
  split; [reflexivity|].
  exact (proj2 (iteration_over_concatenation
                  (failing_dataset ["s0.pb"; "s1.pb"]) ["s0.pb"] ["s1.pb"])
               (RuntimeError "render failed") eq_refl).
Defined.

(** Two scene files over two workers. *)
Lemma workers_cover_single_process_witness :
  1 ≤ 2 ≤ num_scenes (dataset ["s0.pb"; "s1.pb"])
  ∧ outcome (data_gen (dataset ["s0.pb"; "s1.pb"]) ["s0.pb"; "s1.pb"]) = Ok tt
  ∧ ∃ generators,
      comprehension
        (λ w, __iter__ (dataset ["s0.pb"; "s1.pb"])
                (Some {| worker_info.id := w; worker_info.num_workers := 2 |}))
        (seqZ 0 2)
      = Ok generators
      ∧ Forall (λ g, outcome g = Ok tt) generators
      ∧ concat (emitted <$> generators)
        = emitted (data_gen (dataset ["s0.pb"; "s1.pb"]) ["s0.pb"; "s1.pb"]).
Proof.
  assert (1 ≤ 2 ≤ num_scenes (dataset ["s0.pb"; "s1.pb"])) as HW
    by (vm_compute; split; discriminate).
  split; [exact HW|]. split; [reflexivity|].
  exact (workers_cover_single_process (dataset ["s0.pb"; "s1.pb"]) 2
           HW eq_refl).
Defined.

(** The first request is served, the second skipped, the third fails. *)
Lemma helper_exception_ends_iteration_witness :
  make_result (failing_dataset ["s0.pb"; "s1.pb"]) scene0 (moving 3)
  = Raise (RuntimeError "render failed")
  ∧ data_gen (failing_dataset ["s0.pb"; "s1.pb"]) ([] ++ "s0.pb" :: ["s1.pb"])
    = MkEff [ {[ "ground_truth_trajectory" := [(1, 0); (3, 0)];
                 "feature_maps" := [(0, 0)] ]} ]
        (Raise (RuntimeError "render failed")).
Proof.
  split; [reflexivity|].
  apply (helper_exception_ends_iteration (H:=world)
           (failing_dataset ["s0.pb"; "s1.pb"]) [] ["s1.pb"] [] "s0.pb" scene0
           [moving 1; absent 2] [] (moving 3)).
  - constructor.
  - reflexivity.
  - reflexivity.
  - split; reflexivity.
  - reflexivity.
  - repeat constructor.
Defined.

Lemma yielded_example_has_ground_truth_witness :
  is_Some
    (({[ "ground_truth_trajectory" := [(1, 0); (3, 0)];
         "feature_maps" := [(0, 0)] ]} : gmap string (list (Z * Z)))
       !! "ground_truth_trajectory").
Proof.
  apply (yielded_example_has_ground_truth (H:=world)
           (dataset ["s0.pb"]) ["s0.pb"]).
  apply list_elem_of_here.
Defined.

Lemma filter_paths_returns_sublist_witness :
  outcome (_filter_paths (H:=world) is_true ["s0.pb"; "s1.pb"] "tags.txt")
  = Ok ["s0.pb"]
  ∧ sublist ["s0.pb"] ["s0.pb"; "s1.pb"].
Proof.
  split; [reflexivity|].
  exact (proj1 (filter_paths_returns_sublist (H:=world) is_true
                  ["s0.pb"; "s1.pb"] "tags.txt" ["s0.pb"] eq_refl)).
Defined.

Lemma stricter_filter_keeps_fewer_witness :
  outcome (_filter_paths (H:=world) is_true ["s0.pb"; "s1.pb"] "tags.txt")
  = Ok ["s0.pb"]
  ∧ ∃ result,
      outcome (_filter_paths (H:=world) never ["s0.pb"; "s1.pb"] "tags.txt")
      = Ok result
      ∧ sublist result ["s0.pb"].
Proof.
  split; [reflexivity|].
  apply (stricter_filter_keeps_fewer (H:=world) never is_true);
    [discriminate | reflexivity].
Defined.

(** Three records, two of them accepted, for a single path: the report
    says 2/1, and the lookup of the second accepted index then raises. *)
Lemma filter_paths_report_witness :
  file_lines (Collaborators:=world) "long.txt"
  = Some (text_lines ["true"; "false"; "true"])
  ∧ emitted (_filter_paths (H:=world) is_true ["s0.pb"] "long.txt")
    = [EvOpen "long.txt"; EvPrint "2/1 scenes fit the filter criteria."]
  ∧ outcome (_filter_paths (H:=world) is_true ["s0.pb"] "long.txt")
    = Raise IndexError.
Proof.
  split; [reflexivity|]. split; [|reflexivity].
  assert (parsed_as (H:=world) (text_lines ["true"; "false"; "true"])
            [true; false; true]) as Hparsed by (repeat constructor).
  rewrite (proj1 (filter_paths_report (H:=world) is_true ["s0.pb"] "long.txt"
                    (text_lines ["true"; "false"; "true"]) [true; false; true]
                    eq_refl Hparsed)).
  reflexivity.
Defined.

Lemma constructor_rejects_non_callable_witness :
  __init__ (H:=world) "data" "tags.txt" producer true
    (PyObject "<class 'int'>") PyNone None
  = MkEff [] (Raise (ValueError "Expected callable, got <class 'int'>"))
  ∧ __init__ (H:=world) "data" "tags.txt" producer true
      PyNone (PyObject "<class 'int'>") None
    = MkEff [] (Raise (ValueError "Expected callable, got <class 'int'>")).
Proof.
  destruct (constructor_rejects_non_callable (H:=world) "data" "tags.txt"
              producer true (PyObject "<class 'int'>") PyNone None
              "<class 'int'>") as [Hscene _].
  destruct (constructor_rejects_non_callable (H:=world) "data" "tags.txt"
              producer true PyNone (PyObject "<class 'int'>") None
              "<class 'int'>") as [_ Htrajectory].
  split; [exact (Hscene eq_refl) | exact (Htrajectory eq_refl eq_refl)].
Defined.

Lemma callable_or_lambda_true_agrees_witness :
  ∃ predicate : bool → bool,
    _callable_or_lambda_true (dataset []) PyNone = Ok predicate
    ∧ ∀ x, predicate x = true.
Proof.
  exact (proj2 (callable_or_lambda_true_agrees (H:=world) (dataset []) PyNone)
               eq_refl).
Defined.

Lemma construction_report_matches_num_scenes_witness :
  outcome (__init__ (H:=world) "data" "tags.txt" producer true
             (PyCallable is_true) PyNone None)
  = Ok (filtered_dataset ["s0.pb"])
  ∧ emitted (__init__ (H:=world) "data" "tags.txt" producer true
               (PyCallable is_true) PyNone None)
    = [EvListDir "data"; EvOpen "tags.txt";
       EvPrint "1/2 scenes fit the filter criteria."].
Proof.
  split; [reflexivity|].
  rewrite (construction_report_matches_num_scenes (H:=world) "data" "tags.txt"
             producer true (PyCallable is_true) PyNone
             (filtered_dataset ["s0.pb"]) eq_refl).
  reflexivity.
Defined.

Lemma default_trajectory_filter_accepts_all_witness :
  outcome (__init__ (H:=world) "" "" producer true PyNone PyNone
             (Some ["s0.pb"]))
  = Ok (dataset ["s0.pb"])
  ∧ eligible (dataset ["s0.pb"]) scene0 (moving 1).
Proof.
  split; [reflexivity|].
  apply (default_trajectory_filter_accepts_all (H:=world) "" "" producer true
           PyNone (Some ["s0.pb"]) (dataset ["s0.pb"]) eq_refl).
  reflexivity.
Defined.

Lemma no_worker_is_idle_witness :
  1 ≤ 2 ≤ num_scenes (dataset ["a"; "b"; "c"; "d"; "e"])
  ∧ ∃ shard,
      _split_filepaths_by_worker (dataset ["a"; "b"; "c"; "d"; "e"]) 0 2
      = Ok shard
      ∧ 1 ≤ num_scenes (dataset ["a"; "b"; "c"; "d"; "e"]) `div` 2
          ≤ Z.of_nat (length shard).
Proof.
  assert (1 ≤ 2 ≤ num_scenes (dataset ["a"; "b"; "c"; "d"; "e"])) as HW
    by (vm_compute; split; discriminate).
  split; [exact HW|].
  apply (no_worker_is_idle (H:=world)); [exact HW | lia].
Defined.

Lemma constructed_paths_are_listed_files_witness :
  outcome (__init__ (H:=world) "data" "tags.txt" producer true
             (PyCallable is_true) PyNone None)
  = Ok (filtered_dataset ["s0.pb"])
  ∧ sublist ["s0.pb"] (get_file_paths (Collaborators:=world) "data").
Proof.
  split; [reflexivity|].
  exact (proj1 (constructed_paths_are_listed_files (H:=world) "data"
                  "tags.txt" producer true (PyCallable is_true) PyNone
                  (filtered_dataset ["s0.pb"]) eq_refl)).
Defined.

Lemma sharding_failure_modes_witness :
  num_scenes (dataset ["s0.pb"; "s1.pb"]) < 3
  ∧ __iter__ (dataset ["s0.pb"; "s1.pb"])
      (Some {| worker_info.id := 1; worker_info.num_workers := 3 |})
    = Raise (ValueError "range() arg 3 must not be zero")
  ∧ __iter__ (dataset ["s0.pb"; "s1.pb"])
      (Some {| worker_info.id := 0; worker_info.num_workers := 0 |})
    = Raise ZeroDivisionError.
Proof.
  assert (num_scenes (dataset ["s0.pb"; "s1.pb"]) < 3) as Hlt
    by (vm_compute; reflexivity).
  split; [exact Hlt|]. split.
  - exact (proj1 (sharding_failure_modes (dataset ["s0.pb"; "s1.pb"]) 1 3) Hlt).
  - exact (proj2 (sharding_failure_modes (dataset ["s0.pb"; "s1.pb"]) 0 0)
             eq_refl).
Defined.

End MoreExamples.
